(** * A shallow embedding of [create_input.py] (INPUT_RRTM generator for RRTMG LW)

    The Python program reads a JSON configuration (a dict of records, each
    a dict of fields) and renders the fixed-column INPUT_RRTM card deck.
    This file embeds the formatting helpers, the record builders and the
    document assembler, and proves the properties of the specification
    about them; it also embeds the comment filter of [load_config] on a
    model of parsed JSON documents (file reading and JSON parsing are not
    modelled).

    Modelling choices:
    - Python values reachable from a record field are [value]: ints are
      [Z], JSON booleans are [VBool] (a subclass of int in Python),
      doubles are [pyfloat], strings are Stdlib [string]s (ASCII), JSON
      arrays are [VList], JSON null is [VNone].  Dicts nested inside a
      record field are not read by the code and are not modelled.
    - A Python double is modelled by its exact value: sign bit, a
      non-negative mantissa and a binary exponent, or an infinity or NaN.
      Python formats floats with correct rounding (round half to even on
      the exact binary value), which is what the formatters below do.
    - A Python list of characters (the line buffer) is [list ascii];
      assignment [line[i] = ch] follows Python's indexing, negative
      indices included, and raises IndexError out of range.
    - Exceptions are the [Err] case of the [result] monad.
    - [float(s)] on a string is Python's float parser; it is left
      abstract (a Section variable), so every statement below holds for
      any parser. *)

From Stdlib Require Import ZArith NArith Ascii String List Lia.
From stdpp Require Import base gmap strings list.

Open Scope string_scope.
Set Warnings "-register-all".

(* ------------------------------------------------------------------ *)
(** ** Python values, errors and the error monad *)

Inductive pyfloat :=
| PFin (neg : bool) (m : N) (e : Z)   (* (-1)^neg * m * 2^e *)
| PInf (neg : bool)
| PNaN.

Inductive value :=
| VInt (z : Z)
| VBool (b : bool)
| VFloat (f : pyfloat)
| VStr (s : string)
| VList (l : list value)
| VNone.

Inductive pyerr :=
| KeyError (k : string)
| IndexError
| TypeError
| ValueError
| OverflowError.

Inductive result (A : Type) :=
| Ok (a : A)
| Err (e : pyerr).
Arguments Ok {A} a.
Arguments Err {A} e.

Definition bind {A B} (m : result A) (k : A -> result B) : result B :=
  match m with
  | Ok a => k a
  | Err e => Err e
  end.

Notation "'let*' x ':=' m 'in' k" := (bind m (fun x => k))
  (at level 200, x name, m at level 100, k at level 200).

(** A JSON object after [load_config]: a Python dict. *)
Abbreviation record := (gmap string value).
Abbreviation config := (gmap string (gmap string value)).

(** [d[k]] *)
Definition getitem {A} (d : gmap string A) (k : string) : result A :=
  match d !! k with
  | Some v => Ok v
  | None => Err (KeyError k)
  end.

(** [d.get(k, default)] *)
Definition dict_get {A} (d : gmap string A) (k : string) (default : A) : A :=
  match d !! k with
  | Some v => v
  | None => default
  end.

(* ------------------------------------------------------------------ *)
(** ** Decimal rendering of naturals and Python number formatting *)

Definition digit_char (d : N) : ascii := ascii_of_N (48 + d).

Fixpoint dec_aux (fuel : nat) (n : N) (acc : string) : string :=
  match fuel with
  | O => acc
  | S f =>
      let acc' := String (digit_char (n mod 10)) acc in
      if (n <? 10)%N then acc' else dec_aux f (n / 10)%N acc'
  end.

(** [str(n)] for a natural number. *)
Definition N_to_dec (n : N) : string := dec_aux (S (N.to_nat (N.size n))) n "".

Definition spaces (k : nat) : string := string_of_list_ascii (repeat " "%char k).
Definition zeros (k : nat) : string := string_of_list_ascii (repeat "0"%char k).

(** Right alignment to a minimum width, as Python's format-spec width:
    padding on the left, never truncation. *)
Definition pad_left (w : nat) (s : string) : string :=
  spaces (w - String.length s) ++ s.

Definition zero_pad (w : nat) (s : string) : string :=
  zeros (w - String.length s) ++ s.

Definition sign_str (neg : bool) : string := if neg then "-" else "".

(** [str(z)] for a Python int. *)
Definition int_repr (z : Z) : string :=
  sign_str (z <? 0)%Z ++ N_to_dec (Z.abs_N z).

(** Round half to even of [num / den] ([den > 0]). *)
Definition round_half_even (num den : N) : N :=
  let q := (num / den)%N in
  let r := (num mod den)%N in
  match N.compare (2 * r) den with
  | Lt => q
  | Gt => q + 1
  | Eq => if N.even q then q else q + 1
  end%N.

(** The exact value [m * 2^e] as a fraction [a / b]. *)
Definition ratio (m : N) (e : Z) : N * N :=
  if (0 <=? e)%Z then (m * 2 ^ Z.to_N e, 1)%N else (m, 2 ^ Z.to_N (- e))%N.

(** The body of [f"{x:.{d}f}"] (no width). *)
Definition float_f_body (x : pyfloat) (d : nat) : string :=
  match x with
  | PFin s m e =>
      let '(a, b) := ratio m e in
      let p := (10 ^ N.of_nat d)%N in
      let q := round_half_even (a * p) b in
      sign_str s ++ N_to_dec (q / p)
        ++ (if Nat.eqb d 0 then "" else "." ++ zero_pad d (N_to_dec (q mod p)))
  | PInf s => sign_str s ++ "inf"
  | PNaN => "nan"
  end.

(** Decimal exponent [k] of [a / b > 0]: [10^k <= a/b < 10^(k+1)]. *)
Definition dec_exponent (a b : N) : Z :=
  if (b <=? a)%N then Z.of_nat (String.length (N_to_dec (a / b))) - 1
  else
    let j0 := (String.length (N_to_dec b) - String.length (N_to_dec a))%nat in
    if (b <=? a * 10 ^ N.of_nat j0)%N then - Z.of_nat j0 else - Z.of_nat (S j0).

(** The body of [f"{x:.{d}E}"] (no width). *)
Definition float_e_body (x : pyfloat) (d : nat) : string :=
  match x with
  | PFin s m e =>
      let '(a, b) := ratio m e in
      let p := (10 ^ N.of_nat d)%N in
      let k0 := if (a =? 0)%N then 0%Z else dec_exponent a b in
      let sh := (Z.of_nat d - k0)%Z in
      let q0 := if (0 <=? sh)%Z then round_half_even (a * 10 ^ Z.to_N sh) b
                else round_half_even a (b * 10 ^ Z.to_N (- sh)) in
      let '(q, k) := if (p * 10 <=? q0)%N then ((q0 / 10)%N, (k0 + 1)%Z)
                     else (q0, k0) in
      sign_str s ++ N_to_dec (q / p)
        ++ (if Nat.eqb d 0 then "" else "." ++ zero_pad d (N_to_dec (q mod p)))
        ++ "E" ++ (if (k <? 0)%Z then "-" else "+") ++ zero_pad 2 (N_to_dec (Z.abs_N k))
  | PInf s => sign_str s ++ "inf"
  | PNaN => "nan"
  end.

(** [float(n)] for a Python int: round half to even to 53 bits;
    OverflowError when the result is not below [2^1024]. *)
Definition int_to_float (z : Z) : result pyfloat :=
  let n := Z.abs_N z in
  if (n <? 2 ^ 53)%N then Ok (PFin (z <? 0)%Z n 0)
  else
    let k := (N.size n - 53)%N in
    let m := round_half_even n (2 ^ k) in
    if (2 ^ 1024 <=? m * 2 ^ k)%N then Err OverflowError
    else Ok (PFin (z <? 0)%Z m (Z.of_N k)).

Definition bool_to_Z (b : bool) : Z := if b then 1%Z else 0%Z.

(** Python's [x == z] between a value and an int literal. *)
Definition py_eq_num (v : value) (z : Z) : bool :=
  match v with
  | VInt n => Z.eqb n z
  | VBool b => Z.eqb (bool_to_Z b) z
  | VFloat (PFin s m e) =>
      let '(a, b) := ratio m e in
      if (m =? 0)%N then Z.eqb z 0
      else Bool.eqb s (z <? 0)%Z && N.eqb a (Z.abs_N z * b)
  | _ => false
  end.

(** [f"{v:{w}d}"] *)
Definition format_d (v : value) (w : nat) : result string :=
  match v with
  | VInt n => Ok (pad_left w (int_repr n))
  | VBool b => Ok (pad_left w (int_repr (bool_to_Z b)))
  | VFloat _ | VStr _ => Err ValueError
  | _ => Err TypeError
  end.

(** The float a value is formatted as by the [f] and [E] presentation
    types: ints (and bools) are converted with [float()] first. *)
Definition format_float_arg (v : value) : result pyfloat :=
  match v with
  | VInt n => int_to_float n
  | VBool b => int_to_float (bool_to_Z b)
  | VFloat f => Ok f
  | VStr _ => Err ValueError
  | _ => Err TypeError
  end.

(** [f"{v:{w}.{d}f}"] *)
Definition format_f (v : value) (w d : nat) : result string :=
  let* x := format_float_arg v in Ok (pad_left w (float_f_body x d)).

(** [f"{v:{w}.{d}E}"] *)
Definition format_e (v : value) (w d : nat) : result string :=
  let* x := format_float_arg v in Ok (pad_left w (float_e_body x d)).

(* ------------------------------------------------------------------ *)
(** ** Fortran fixed-format helpers *)

(** [line[i] = ch] on a Python list. *)
Definition py_setitem (line : list ascii) (i : Z) (ch : ascii) : result (list ascii) :=
  let n := Z.of_nat (length line) in
  if (0 <=? i)%Z && (i <? n)%Z then Ok (<[Z.to_nat i := ch]> line)
  else if (- n <=? i)%Z && (i <? 0)%Z then Ok (<[Z.to_nat (n + i) := ch]> line)
  else Err IndexError.

(** [for i, ch in enumerate(text): line[idx + i] = ch] *)
Fixpoint place_chars (line : list ascii) (idx : Z) (text : list ascii)
  : result (list ascii) :=
  match text with
  | [] => Ok line
  | ch :: rest =>
      let* line' := py_setitem line idx ch in
      place_chars line' (idx + 1)%Z rest
  end.

(** [place_str(line, col1, text)]: place a string starting at 1-based
    column [col1]. *)
Definition place_str (line : list ascii) (col1 : Z) (text : string)
  : result (list ascii) :=
  place_chars line (col1 - 1)%Z (list_ascii_of_string text).

(** [fmt_int(value, width)] *)
Definition fmt_int (v : value) (width : nat) : result string := format_d v width.

(** [fmt_float_e(value, width, decimals)] *)
Definition fmt_float_e (v : value) (width decimals : nat) : result string :=
  if negb (py_eq_num v 0) then format_e v width decimals
  else format_f v width decimals.

(** [fmt_float_f(value, width, decimals)] *)
Definition fmt_float_f (v : value) (width decimals : nat) : result string :=
  format_f v width decimals.

(** [make_line(length)] *)
Definition make_line (len : nat) : list ascii := repeat " "%char len.

(** Python's [str.isspace] on an ASCII character. *)
Definition is_space (c : ascii) : bool :=
  let n := nat_of_ascii c in
  (Nat.eqb n 32 || ((9 <=? n) && (n <=? 13)) || ((28 <=? n) && (n <=? 31)))%nat.

Fixpoint drop_spaces (l : list ascii) : list ascii :=
  match l with
  | [] => []
  | c :: l' => if is_space c then drop_spaces l' else l
  end.

(** [s.rstrip()] on a list of characters. *)
Definition rstrip (l : list ascii) : list ascii := rev (drop_spaces (rev l)).

(** [line_to_str(line)] *)
Definition line_to_str (line : list ascii) : string :=
  string_of_list_ascii (rstrip line).

(* ------------------------------------------------------------------ *)
(** ** Record builders and the document assembler *)

Section Generator.

(** Python's [float(s)] for a string [s]: a float, or [None] when it
    raises ValueError. *)
Variable float_of_str : string -> option pyfloat.

(** [float(v)] *)
Definition py_float (v : value) : result pyfloat :=
  match v with
  | VInt n => int_to_float n
  | VBool b => int_to_float (bool_to_Z b)
  | VFloat f => Ok f
  | VStr s =>
      match float_of_str s with
      | Some f => Ok f
      | None => Err ValueError
      end
  | _ => Err TypeError
  end.

(** [build_record_1_1(cfg)]: the header and the [$] control line. *)
Definition build_record_1_1 (cfg : config) : result (list value) :=
  let* r := getitem cfg "record_1_1" in
  let* h := getitem r "header" in
  let* c := getitem r "control_line" in
  Ok [h; c].

(** [place_str(line, col, fmt_int(r[key], width))] *)
Definition place_int (r : record) (line : list ascii) (col : Z) (key : string)
    (width : nat) : result (list ascii) :=
  let* v := getitem r key in
  let* s := fmt_int v width in
  place_str line col s.

(** [build_record_1_2(cfg)]: main control flags. *)
Definition build_record_1_2 (cfg : config) : result string :=
  let* r := getitem cfg "record_1_2" in
  let line := make_line 95 in
  let* line := place_int r line 19 "IAER" 2 in
  let* line := place_int r line 50 "IATM" 1 in
  let* line := place_int r line 70 "IXSECT" 1 in
  let* line := place_int r line 84 "NUMANGS" 2 in
  let* line := place_int r line 88 "IOUT" 3 in
  let* line := place_int r line 92 "IDRV" 1 in
  let* line := place_int r line 94 "IMCA" 1 in
  let* line := place_int r line 95 "ICLD" 1 in
  Ok (line_to_str line).

(** [for i, val in enumerate(semiss): place_str(line, 16 + i*5, f"{val:5.2f}")] *)
Fixpoint place_semiss (line : list ascii) (i : nat) (vals : list value)
  : result (list ascii) :=
  match vals with
  | [] => Ok line
  | v :: rest =>
      let* s := format_f v 5 2 in
      let* line := place_str line (16 + Z.of_nat i * 5)%Z s in
      place_semiss line (S i) rest
  end.

(** Iterating over [r.get("SEMISS", [])]: a list yields its elements, a
    string its characters (each of which [f"{c:5.2f}"] rejects), any
    other value is not iterable. *)
Definition semiss_loop (line : list ascii) (semiss : value) : result (list ascii) :=
  match semiss with
  | VList vals => place_semiss line 0 vals
  | VStr "" => Ok line
  | VStr _ => Err ValueError
  | _ => Err TypeError
  end.

(** [build_record_1_4(cfg)]: surface properties. *)
Definition build_record_1_4 (cfg : config) : result string :=
  let* r := getitem cfg "record_1_4" in
  let line := make_line 95 in
  let* tb := getitem r "TBOUND" in
  let* tbound_str := format_f tb 0 1 in
  let* line := place_str line 1 tbound_str in
  let* line := place_int r line 12 "IEMIS" 1 in
  let* line := place_int r line 15 "IREFLECT" 1 in
  let semiss := dict_get r "SEMISS" (VList []) in
  let* line := semiss_loop line semiss in
  Ok (line_to_str line).

(** [build_record_3_1(cfg)]: atmospheric profile selection. *)
Definition build_record_3_1 (cfg : config) : result string :=
  let* r := getitem cfg "record_3_1" in
  let line := make_line 80 in
  let* line := place_int r line 1 "MODEL" 5 in
  let* line := place_int r line 11 "IBMAX" 5 in
  let* line := place_int r line 21 "NOPRNT" 5 in
  let* line := place_int r line 26 "NMOL" 5 in
  let* line := place_int r line 31 "IPUNCH" 5 in
  let* line := place_int r line 39 "MUNITS" 2 in
  let re_val := dict_get r "RE" (VInt 0) in
  let* line :=
    if negb (py_eq_num re_val 0) then
      let* s := fmt_float_f re_val 10 3 in place_str line 41 s
    else place_str line 45 "0" in
  let* line :=
    if negb (py_eq_num (dict_get r "CO2MX" (VInt 0)) 0) then
      let* co2 := getitem r "CO2MX" in
      let* s := fmt_float_f co2 10 3 in place_str line 71 s
    else place_str line 71 "0" in
  Ok (line_to_str line).

(** [build_record_3_2(cfg)]: altitude boundaries. *)
Definition build_record_3_2 (cfg : config) : result string :=
  let* r := getitem cfg "record_3_2" in
  let line := make_line 20 in
  let* hb := getitem r "HBOUND" in
  let* hb_str := format_f hb 0 1 in
  let* line := place_str line 1 hb_str in
  let* htoa := getitem r "HTOA" in
  let* s := fmt_float_f htoa 10 1 in
  let* line := place_str line 11 s in
  Ok (line_to_str line).

Definition layer_keys : list string := ["AVTRAT"; "TDIFF1"; "TDIFF2"; "ALTD1"; "ALTD2"].

(** The loop of [build_record_3_3a] from index [i] on. *)
Fixpoint place_layer (r : record) (line : list ascii) (i : nat) (keys : list string)
  : result (list ascii) :=
  match keys with
  | [] => Ok line
  | key :: rest =>
      let v := dict_get r key (VInt 0) in
      let* f := py_float v in
      let* s := fmt_float_f (VFloat f) 10 0 in
      let* line := place_str line (1 + Z.of_nat i * 10)%Z s in
      place_layer r line (S i) rest
  end.

(** [build_record_3_3a(cfg)]: layer generation parameters. *)
Definition build_record_3_3a (cfg : config) : result string :=
  let* r := getitem cfg "record_3_3a" in
  let* line := place_layer r (make_line 50) 0 layer_keys in
  Ok (line_to_str line).

(** The list [lines] of [generate_input_rrtm] just before it is joined. *)
Definition generate_lines (cfg : config) : result (list value) :=
  let* hdr := build_record_1_1 cfg in
  let* l12 := build_record_1_2 cfg in
  let* l14 := build_record_1_4 cfg in
  let* r12 := getitem cfg "record_1_2" in
  let* iatm := getitem r12 "IATM" in
  if py_eq_num iatm 1 then
    let* l31 := build_record_3_1 cfg in
    let* l32 := build_record_3_2 cfg in
    let* r31 := getitem cfg "record_3_1" in
    let ibmax := dict_get r31 "IBMAX" (VInt 0) in
    if py_eq_num ibmax 0 then
      let* l33 := build_record_3_3a cfg in
      Ok (app hdr [VStr l12; VStr l14; VStr l31; VStr l32; VStr l33; VStr ""])
    else Ok (app hdr [VStr l12; VStr l14; VStr l31; VStr l32; VStr ""])
  else Ok (app hdr [VStr l12; VStr l14; VStr ""]).

End Generator.

(** The one-character string ["\n"]. *)
Definition newline : string := String "010"%char EmptyString.

(** [sep.join(items)]: every item must be a string. *)
Fixpoint py_join (sep : string) (items : list value) : result string :=
  match items with
  | [] => Ok ""
  | [VStr s] => Ok s
  | VStr s :: rest => let* t := py_join sep rest in Ok (s ++ sep ++ t)
  | _ :: _ => Err TypeError
  end.

(** [generate_input_rrtm(cfg)] *)
Definition generate_input_rrtm (float_of_str : string -> option pyfloat)
    (cfg : config) : result string :=
  let* lines := generate_lines float_of_str cfg in
  let* s := py_join newline lines in
  Ok (s ++ newline).

(* ------------------------------------------------------------------ *)
(** ** The comment filter of [load_config] *)

(** A JSON document as [json.load] returns it: objects are Python dicts,
    kept as their (key, value) entries in insertion order. *)
Inductive json :=
| JNull
| JBool (b : bool)
| JInt (n : Z)
| JFloat (f : pyfloat)
| JStr (s : string)
| JArr (items : list json)
| JObj (entries : list (string * json)).

(** [s.startswith(p)] *)
Definition starts_with (p s : string) : bool := String.prefix p s.

(** [s.endswith(suf)] *)
Definition ends_with (suf s : string) : bool :=
  let n := String.length s in
  let m := String.length suf in
  (m <=? n)%nat && String.eqb (substring (n - m) m s) suf.

(** The condition of the dict comprehension in [strip_comments]. *)
Definition keep_key (k : string) : bool :=
  negb (starts_with "_" k) && negb (ends_with "_options" k) && negb (ends_with "_note" k).

(** [strip_comments(obj)] of [load_config]: a dict is rebuilt from its
    entries whose key passes [keep_key], each value stripped in turn;
    any other value (lists included) is returned as it is. *)
Fixpoint strip_comments (j : json) : json :=
  match j with
  | JObj kvs =>
      JObj ((fix strip_entries (l : list (string * json)) : list (string * json) :=
               match l with
               | [] => []
               | (k, v) :: l' =>
                   if keep_key k then (k, strip_comments v) :: strip_entries l'
                   else strip_entries l'
               end) kvs)
  | _ => j
  end.

(** [load_config(path)] once [json.load] has parsed the file into [raw]. *)
Definition load_config (raw : json) : json := strip_comments raw.

(** The value of the first entry with key [k]. *)
Fixpoint obj_lookup (k : string) (kvs : list (string * json)) : option json :=
  match kvs with
  | [] => None
  | (k', v) :: l => if String.eqb k k' then Some v else obj_lookup k l
  end.

(** The keys of a dict, in order ([list(d)]); none for any other value. *)
Definition obj_keys (j : json) : list string :=
  match j with JObj kvs => map fst kvs | _ => [] end.

(** [d.get(k)] on a dict; none for any other value. *)
Definition obj_get (k : string) (j : json) : option json :=
  match j with JObj kvs => obj_lookup k kvs | _ => None end.

(** No dict reachable from [j] through dict values has a key that
    [strip_comments] drops (lists are not looked into). *)
Fixpoint comment_free (j : json) : bool :=
  match j with
  | JObj kvs => forallb (fun kv => keep_key (fst kv) && comment_free (snd kv)) kvs
  | _ => true
  end.

(** Induction on JSON documents with a hypothesis for every element of a
    list and every value of a dict. *)
Section json_ind'.
Variable P : json -> Prop.
Hypothesis HNull : P JNull.
Hypothesis HBool : forall b, P (JBool b).
Hypothesis HInt : forall n, P (JInt n).
Hypothesis HFloat : forall f, P (JFloat f).
Hypothesis HStr : forall s, P (JStr s).
Hypothesis HArr : forall l, Forall P l -> P (JArr l).
Hypothesis HObj : forall kvs, Forall (fun kv => P (snd kv)) kvs -> P (JObj kvs).

Fixpoint json_ind' (j : json) : P j :=
  match j with
  | JNull => HNull
  | JBool b => HBool b
  | JInt n => HInt n
  | JFloat f => HFloat f
  | JStr s => HStr s
  | JArr l =>
      HArr l ((fix go (l : list json) : Forall P l :=
                 match l with
                 | [] => List.Forall_nil _
                 | x :: t => @List.Forall_cons _ _ _ _ (json_ind' x) (go t)
                 end) l)
  | JObj kvs =>
      HObj kvs ((fix go (l : list (string * json)) : Forall (fun kv => P (snd kv)) l :=
                   match l with
                   | [] => List.Forall_nil _
                   | kv :: t => @List.Forall_cons _ _ _ _ (json_ind' (snd kv)) (go t)
                   end) kvs)
  end.
End json_ind'.

(* ------------------------------------------------------------------ *)
(** ** Views of the output used in the statements *)

(** The character at 1-based column [col] of a finished line; a column
    past the end of the (right-trimmed) line reads as a blank. *)
Definition col_at (L : string) (col : nat) : ascii :=
  nth (col - 1) (list_ascii_of_string L) " "%char.

(** Columns [col .. col + w - 1] of a finished line. *)
Definition slot (L : string) (col w : nat) : string :=
  string_of_list_ascii (map (fun k => col_at L (col + k)) (seq 0 w)).

(** The lines of a text, as Python's [str.splitlines] for newlines: each
    line is terminated by a newline, except possibly the last one. *)
Fixpoint text_lines (s : string) : list string :=
  match s with
  | EmptyString => []
  | String c s' =>
      if Ascii.eqb c "010"%char then "" :: text_lines s'
      else match text_lines s' with
           | [] => [String c ""]
           | l :: ls => String c l :: ls
           end
  end.

(** A string with no newline character. *)
Definition nl_free (s : string) : Prop :=
  Forall (fun c => c <> "010"%char) (list_ascii_of_string s).

(** A character that is either a blank or not whitespace at all: every
    character a formatter produces.  Such characters survive [rstrip]
    where they stand, or read as the blank they were. *)
Definition blank_safe (c : ascii) : Prop := c = " "%char \/ is_space c = false.

(** Values that compare equal to [0] in Python. *)
Definition numeric_zero (v : value) : Prop :=
  v = VInt 0 \/ v = VBool false \/ exists s e, v = VFloat (PFin s 0 e).

(** The record [rk] is present and has every field of [fields]. *)
Definition has_fields (cfg : config) (rk : string) (fields : list string) : Prop :=
  exists r, cfg !! rk = Some r /\ Forall (fun f => is_Some (r !! f)) fields.

(** The key [k] is missing: absent from the configuration, or absent
    from one of its records. *)
Definition key_missing (cfg : config) (k : string) : Prop :=
  cfg !! k = None \/ exists rk r, cfg !! rk = Some r /\ r !! k = None.

(** The path of [generate_input_rrtm] that a configuration activates:
    the records it reads with [cfg[rk]], each with the fields read from
    it with [r[key]] (fields read with [r.get(key, default)] are left
    out).  Records 3.1 and 3.2 are on the path when IATM compares equal
    to 1, record 3.3A when moreover IBMAX (default 0) compares equal
    to 0. *)
Definition active_records (cfg : config) : list (string * list string) :=
  [("record_1_1", ["header"; "control_line"]);
   ("record_1_2", ["IAER"; "IATM"; "IXSECT"; "NUMANGS"; "IOUT"; "IDRV"; "IMCA"; "ICLD"]);
   ("record_1_4", ["TBOUND"; "IEMIS"; "IREFLECT"])] ++
  match cfg !! "record_1_2" with
  | Some r12 =>
      match r12 !! "IATM" with
      | Some iatm =>
          if py_eq_num iatm 1 then
            [("record_3_1", ["MODEL"; "IBMAX"; "NOPRNT"; "NMOL"; "IPUNCH"; "MUNITS"]);
             ("record_3_2", ["HBOUND"; "HTOA"])] ++
            match cfg !! "record_3_1" with
            | Some r31 =>
                if py_eq_num (dict_get r31 "IBMAX" (VInt 0)) 0
                then [("record_3_3a", [])] else []
            | None => []
            end
          else []
      | None => []
      end
  | None => []
  end.

(** [k] names record [rk] missing from [cfg], or one of [fields]
    missing from record [rk]. *)
Definition missing_in (cfg : config) (rk : string) (fields : list string) (k : string) : Prop :=
  (cfg !! rk = None /\ k = rk) \/
  (exists r, cfg !! rk = Some r /\ In k fields /\ r !! k = None).

(** [k] names a record of the active path that is missing, or a
    required field missing from a present record of the active path. *)
Definition required_missing (cfg : config) (k : string) : Prop :=
  exists rk fields, In (rk, fields) (active_records cfg) /\ missing_in cfg rk fields k.

(** The integer field [key] of [r] is an int whose decimal rendering fits
    in [w] columns. *)
Definition int_fits (r : record) (key : string) (w : nat) : Prop :=
  exists n, r !! key = Some (VInt n) /\ String.length (int_repr n) <= w.

(** The field [key] of [r] is present and is an int (or a bool). *)
Definition int_valued (r : record) (key : string) : Prop :=
  exists v, r !! key = Some v /\ match v with VInt _ | VBool _ => True | _ => False end.

(* ------------------------------------------------------------------ *)
(** ** Concrete configurations *)

(** A string parser that accepts nothing (only reached when a layer
    parameter is a string). *)
Definition float_of_str_none (s : string) : option pyfloat := None.

Definition fl (neg : bool) (m : N) (e : Z) : value := VFloat (PFin neg m e).

(** [0.98] as a double. *)
Definition v098 : value := fl false 2206763817411543 (-51).

Definition rec_1_1 : record :=
  list_to_map [("header", VStr "$ RRTM"); ("control_line", VStr "$ control")].

Definition rec_1_2 (iatm iaer : Z) : record :=
  list_to_map [("IAER", VInt iaer); ("IATM", VInt iatm); ("IXSECT", VInt 0);
               ("NUMANGS", VInt 0); ("IOUT", VInt 0); ("IDRV", VInt 0);
               ("IMCA", VInt 0); ("ICLD", VInt 0)].

Definition rec_1_4 : record :=
  list_to_map [("TBOUND", fl false 9 5); ("IEMIS", VInt 1); ("IREFLECT", VInt 0);
               ("SEMISS", VList [v098; v098])].

Definition rec_3_1 : record :=
  list_to_map [("MODEL", VInt 1); ("IBMAX", VInt 0); ("NOPRNT", VInt 0);
               ("NMOL", VInt 7); ("IPUNCH", VInt 0); ("MUNITS", VInt 0);
               ("RE", VInt 0); ("CO2MX", fl false 0 0)].

Definition rec_3_2 : record :=
  list_to_map [("HBOUND", fl false 0 0); ("HTOA", VInt 100)].

Definition rec_3_3a : record := list_to_map [("AVTRAT", fl false 5 0)].

Definition cfg_full (iatm iaer : Z) : config :=
  list_to_map [("record_1_1", rec_1_1); ("record_1_2", rec_1_2 iatm iaer);
               ("record_1_4", rec_1_4); ("record_3_1", rec_3_1);
               ("record_3_2", rec_3_2); ("record_3_3a", rec_3_3a)].

(** Record 1.4 with an emissivity of [0.0] in second position. *)
Definition rec_1_4_zero : record := <["SEMISS" := VList [v098; fl false 0 0]]> rec_1_4.

Definition cfg_zero_emis : config := <["record_1_4" := rec_1_4_zero]> (cfg_full 1 0).

(** [cfg_full 1 0] without [SEMISS] in record 1.4 and without [RE] and
    [CO2MX] in record 3.1. *)
Definition cfg_sparse : config :=
  <["record_1_4" := delete "SEMISS" rec_1_4]>
  (<["record_3_1" := delete "RE" (delete "CO2MX" rec_3_1)]> (cfg_full 1 0)).

(** [cfg_full 1 0] with IBMAX = 1. *)
Definition cfg_ibmax1 : config :=
  <["record_3_1" := <["IBMAX" := VInt 1]> rec_3_1]> (cfg_full 1 0).

(** [cfg_full 1 0] with seventeen emissivities. *)
Definition cfg_semiss17 : config :=
  <["record_1_4" := <["SEMISS" := VList (repeat v098 17)]> rec_1_4]> (cfg_full 1 0).

(** [cfg_full 1 0] with no ICLD in record 1.2 and a string IAER, which
    is read first. *)
Definition cfg_masked : config :=
  <["record_1_2" := <["IAER" := VStr "x"]> (delete "ICLD" (rec_1_2 1 0))]> (cfg_full 1 0).

(** A parsed configuration with comment keys at the top level and
    inside a record. *)
Definition raw_doc : json :=
  JObj [("_comment", JStr "generated"); ("record_1_2", JObj [("IATM", JInt 1);
        ("IATM_note", JStr "1 = profile")]); ("mode_options", JArr [JStr "a"])].

(** Inverting a chain of [let*] that ended in [Ok]. *)
Ltac inv_ok :=
  repeat match goal with
  | H : bind ?m _ = Ok _ |- _ =>
      let a := fresh "a" in let Ha := fresh "Ha" in
      destruct m as [a|?] eqn:Ha; simpl in H; [|discriminate H]
  | H : Ok _ = Ok _ |- _ => injection H as H; subst
  | H : (if ?c then _ else _) = Ok _ |- _ => let E := fresh "E" in destruct c eqn:E
  end.

(** Inverting a chain of [let*] that ended in [Err]. *)
Ltac inv_err :=
  repeat match goal with
  | H : bind ?m _ = Err _ |- _ =>
      let a := fresh "a" in let Ha := fresh "Ha" in
      destruct m as [a|?] eqn:Ha; simpl in H;
      [| injection H as H; subst]
  | H : (if ?c then _ else _) = Err _ |- _ => let E := fresh "E" in destruct c eqn:E
  | H : Ok _ = Err _ |- _ => discriminate H
  end.

(* ------------------------------------------------------------------ *)
(** ** The line buffer: placement *)

Lemma get_list_ascii (s : string) (k : nat) :
  String.get k s = list_ascii_of_string s !! k.
Proof.
  revert k. induction s as [|c s IH]; intros [|k]; simpl; auto.
Qed.

Lemma length_list_ascii (s : string) :
  String.length s = length (list_ascii_of_string s).
Proof. induction s; simpl; auto. Qed.

Lemma py_setitem_in (line : list ascii) (i : nat) (ch : ascii) :
  i < length line -> py_setitem line (Z.of_nat i) ch = Ok (<[i := ch]> line).
Proof.
  intros Hi. unfold py_setitem.
  replace ((0 <=? Z.of_nat i)%Z && (Z.of_nat i <? Z.of_nat (length line))%Z)
    with true by (symmetry; apply andb_true_iff; split; [apply Z.leb_le | apply Z.ltb_lt]; lia).
  by rewrite Nat2Z.id.
Qed.

Lemma place_chars_spec (cs line : list ascii) (idx : nat) :
  idx + length cs <= length line ->
  exists line', place_chars line (Z.of_nat idx) cs = Ok line' /\
    length line' = length line /\
    (forall k, k < length cs -> line' !! (idx + k) = cs !! k) /\
    (forall i, i < idx \/ idx + length cs <= i -> line' !! i = line !! i).
Proof.
  revert line idx. induction cs as [|c cs IH]; intros line idx Hlen; simpl in *.
  - exists line. repeat split; auto. intros k Hk. lia.
  - rewrite (py_setitem_in line idx c) by lia. simpl.
    destruct (IH (<[idx := c]> line) (S idx)) as (line' & Hpl & Hl & Hin & Hout).
    { rewrite length_insert. lia. }
    replace (Z.of_nat idx + 1)%Z with (Z.of_nat (S idx)) by lia.
    exists line'. split; [exact Hpl|]. split; [by rewrite Hl, length_insert|]. split.
    + intros [|k] Hk.
      * rewrite Nat.add_0_r, Hout by lia. apply list_lookup_insert_eq. lia.
      * replace (idx + S k) with (S idx + k) by lia. apply Hin. lia.
    + intros i Hi. rewrite Hout by lia. apply list_lookup_insert_ne. lia.
Qed.

(** C9: placing a text inside the buffer overwrites exactly
    [len(text)] characters from the 1-based column on, leaves every
    other position unchanged, and keeps the buffer's length. *)
Theorem place_str_frame (line : list ascii) (col : Z) (text : string) :
  (1 <= col)%Z ->
  (col - 1 + Z.of_nat (String.length text) <= Z.of_nat (length line))%Z ->
  exists line', place_str line col text = Ok line' /\
    length line' = length line /\
    (forall k, k < String.length text ->
       line' !! (Z.to_nat (col - 1) + k) = String.get k text) /\
    (forall i, i < Z.to_nat (col - 1) \/ Z.to_nat (col - 1) + String.length text <= i ->
       line' !! i = line !! i).
Proof.
  intros H1 H2. unfold place_str.
  assert (Hc : (col - 1)%Z = Z.of_nat (Z.to_nat (col - 1))) by lia.
  pose proof (length_list_ascii text) as Hlen.
  destruct (place_chars_spec (list_ascii_of_string text) line (Z.to_nat (col - 1)))
    as (line' & Hpl & Hl & Hin & Hout); [lia|].
  assert (Hp : place_chars line (col - 1) (list_ascii_of_string text) = Ok line')
    by (rewrite Hc; exact Hpl).
  rewrite Hp. exists line'. repeat split; auto.
  - intros k Hk. rewrite get_list_ascii. apply Hin. lia.
  - intros i Hi. apply Hout. lia.
Qed.

Lemma place_str_frame_witness :
  (1 <= 3)%Z /\ (3 - 1 + Z.of_nat (String.length "ab") <= Z.of_nat (length (make_line 5)))%Z /\
  exists line', place_str (make_line 5) 3 "ab" = Ok line' /\
    length line' = length (make_line 5) /\
    (forall k, k < String.length "ab" ->
       line' !! (Z.to_nat (3 - 1) + k) = String.get k "ab") /\
    (forall i, i < Z.to_nat (3 - 1) \/ Z.to_nat (3 - 1) + String.length "ab" <= i ->
       line' !! i = make_line 5 !! i).
Proof.
  split; [lia|]. split; [vm_compute; discriminate|].
  apply (place_str_frame (make_line 5) 3 "ab"); [lia | vm_compute; discriminate].
Defined.

Lemma place_chars_bound (cs line line' : list ascii) (idx : Z) :
  cs <> [] -> (0 <= idx)%Z -> place_chars line idx cs = Ok line' ->
  (idx + Z.of_nat (length cs) <= Z.of_nat (length line))%Z.
Proof.
  revert line idx. induction cs as [|c cs IH]; intros line idx Hne H0 H; simpl in *;
    [congruence|].
  destruct cs as [|c' cs'].
  { simpl in H. unfold py_setitem in H.
    destruct ((0 <=? idx)%Z && (idx <? Z.of_nat (length line))%Z) eqn:Hin.
    - apply andb_true_iff in Hin as [_ Hlt]. apply Z.ltb_lt in Hlt. simpl. lia.
    - destruct ((- Z.of_nat (length line) <=? idx)%Z && (idx <? 0)%Z) eqn:Hneg.
      + apply andb_true_iff in Hneg as [_ Hneg]. apply Z.ltb_lt in Hneg. lia.
      + discriminate H. }
  unfold py_setitem in H.
  destruct ((0 <=? idx)%Z && (idx <? Z.of_nat (length line))%Z) eqn:Hin.
  - simpl in H. apply andb_true_iff in Hin as [_ Hlt]. apply Z.ltb_lt in Hlt.
    apply IH in H; [|discriminate|lia]. rewrite length_insert in H. lia.
  - destruct ((- Z.of_nat (length line) <=? idx)%Z && (idx <? 0)%Z) eqn:Hneg.
    + apply andb_true_iff in Hneg as [_ Hneg]. apply Z.ltb_lt in Hneg. lia.
    + discriminate H.
Qed.

(** A successful placement at a column [>= 1] stayed inside the buffer,
    so the frame property applies. *)
Lemma place_str_ok (line line' : list ascii) (col : Z) (text : string) :
  (1 <= col)%Z -> place_str line col text = Ok line' ->
  length line' = length line /\
  (forall k, k < String.length text ->
     line' !! (Z.to_nat (col - 1) + k) = String.get k text) /\
  (forall i, i < Z.to_nat (col - 1) \/ Z.to_nat (col - 1) + String.length text <= i ->
     line' !! i = line !! i).
Proof.
  intros H1 H. destruct text as [|c0 t0].
  { unfold place_str in H. simpl in H. injection H as <-.
    repeat split; auto. intros k Hk. simpl in Hk. lia. }
  pose proof H as Hb. unfold place_str in Hb.
  apply place_chars_bound in Hb; [|discriminate|lia]. rewrite <- length_list_ascii in Hb.
  destruct (place_str_frame line col (String c0 t0)) as (l2 & H2 & Hrest); [lia|lia|].
  rewrite H in H2. injection H2 as ->. exact Hrest.
Qed.

(** Positions before the column are untouched. *)
Lemma place_str_before (line line' : list ascii) (col : Z) (text : string) (i : nat) :
  (1 <= col)%Z -> place_str line col text = Ok line' -> i < Z.to_nat (col - 1) ->
  line' !! i = line !! i.
Proof. intros H1 H Hi. apply place_str_ok in H as (_ & _ & H); auto. Qed.

Lemma place_str_length (line line' : list ascii) (col : Z) (text : string) :
  (1 <= col)%Z -> place_str line col text = Ok line' -> length line' = length line.
Proof. intros H1 H. apply place_str_ok in H as (H & _); auto. Qed.

(* ------------------------------------------------------------------ *)
(** ** Characters produced by the formatters *)

Lemma list_ascii_app (s1 s2 : string) :
  list_ascii_of_string (s1 ++ s2) = app (list_ascii_of_string s1) (list_ascii_of_string s2).
Proof. induction s1 as [|c s1 IH]; simpl; [reflexivity | by rewrite IH]. Qed.

Lemma blank_safe_not_nl (c : ascii) : blank_safe c -> c <> "010"%char.
Proof. intros [H | H] E; subst; discriminate. Qed.

Lemma digit_char_safe (d : N) : (d < 10)%N -> blank_safe (digit_char d).
Proof.
  intros Hd. right.
  assert (d = 0 \/ d = 1 \/ d = 2 \/ d = 3 \/ d = 4 \/ d = 5 \/ d = 6 \/ d = 7
          \/ d = 8 \/ d = 9)%N as Hc by lia.
  repeat destruct Hc as [-> | Hc]; [..|subst]; reflexivity.
Qed.

Lemma dec_aux_safe (fuel : nat) (n : N) (acc : string) :
  Forall blank_safe (list_ascii_of_string acc) ->
  Forall blank_safe (list_ascii_of_string (dec_aux fuel n acc)).
Proof.
  revert n acc. induction fuel as [|f IH]; intros n acc H; simpl; [exact H|].
  assert (Hd : Forall blank_safe (list_ascii_of_string (String (digit_char (n mod 10)) acc))).
  { simpl. constructor; [apply digit_char_safe, N.mod_lt; lia | exact H]. }
  destruct (n <? 10)%N; [exact Hd | apply IH, Hd].
Qed.

Lemma N_to_dec_safe (n : N) : Forall blank_safe (list_ascii_of_string (N_to_dec n)).
Proof. apply dec_aux_safe. constructor. Qed.

Lemma repeat_safe (c : ascii) (k : nat) :
  blank_safe c -> Forall blank_safe (list_ascii_of_string (string_of_list_ascii (repeat c k))).
Proof.
  intros Hc. rewrite list_ascii_of_string_of_list_ascii.
  induction k; simpl; constructor; auto.
Qed.

Lemma app_safe (s1 s2 : string) :
  Forall blank_safe (list_ascii_of_string s1) -> Forall blank_safe (list_ascii_of_string s2) ->
  Forall blank_safe (list_ascii_of_string (s1 ++ s2)).
Proof. intros H1 H2. rewrite list_ascii_app. apply Forall_app; auto. Qed.

Lemma lit_safe (s : string) :
  forallb (fun c => Nat.eqb (nat_of_ascii c) 32 || negb (is_space c)) (list_ascii_of_string s) = true ->
  Forall blank_safe (list_ascii_of_string s).
Proof.
  intros H. apply List.Forall_forall. intros c Hc. eapply forallb_forall in H; [|exact Hc].
  apply orb_true_iff in H as [H | H].
  - left. apply Nat.eqb_eq in H. rewrite <- (ascii_nat_embedding c), H. reflexivity.
  - right. destruct (is_space c); auto.
Qed.

Ltac safe :=
  repeat first
    [ apply app_safe
    | apply N_to_dec_safe
    | apply repeat_safe; first [left; reflexivity | right; reflexivity]
    | apply lit_safe; reflexivity ].

Lemma pad_left_safe (w : nat) (s : string) :
  Forall blank_safe (list_ascii_of_string s) -> Forall blank_safe (list_ascii_of_string (pad_left w s)).
Proof. intros H. unfold pad_left, spaces. safe. exact H. Qed.

Lemma sign_str_safe (b : bool) : Forall blank_safe (list_ascii_of_string (sign_str b)).
Proof. destruct b; apply lit_safe; reflexivity. Qed.

Lemma zero_pad_safe (w : nat) (s : string) :
  Forall blank_safe (list_ascii_of_string s) -> Forall blank_safe (list_ascii_of_string (zero_pad w s)).
Proof. intros H. unfold zero_pad, zeros. safe. exact H. Qed.

Lemma int_repr_safe (z : Z) : Forall blank_safe (list_ascii_of_string (int_repr z)).
Proof. unfold int_repr. safe. apply sign_str_safe. Qed.

Ltac safe_cases :=
  repeat first
    [ apply sign_str_safe
    | apply zero_pad_safe
    | progress safe
    | match goal with
      | |- context [if ?b then _ else _] => destruct b
      | |- context [let '(_, _) := ?p in _] => destruct p
      end ].

Lemma float_f_body_safe (x : pyfloat) (d : nat) :
  Forall blank_safe (list_ascii_of_string (float_f_body x d)).
Proof. destruct x; cbn [float_f_body]; safe_cases. Qed.

Lemma float_e_body_safe (x : pyfloat) (d : nat) :
  Forall blank_safe (list_ascii_of_string (float_e_body x d)).
Proof. destruct x; cbn [float_e_body]; safe_cases. Qed.

Lemma format_d_safe (v : value) (w : nat) (s : string) :
  format_d v w = Ok s -> Forall blank_safe (list_ascii_of_string s).
Proof.
  destruct v; simpl; intros H; try discriminate; injection H as <-;
    apply pad_left_safe, int_repr_safe.
Qed.

Lemma format_f_safe (v : value) (w d : nat) (s : string) :
  format_f v w d = Ok s -> Forall blank_safe (list_ascii_of_string s).
Proof.
  unfold format_f. intros H. inv_ok. apply pad_left_safe, float_f_body_safe.
Qed.

Lemma format_e_safe (v : value) (w d : nat) (s : string) :
  format_e v w d = Ok s -> Forall blank_safe (list_ascii_of_string s).
Proof.
  unfold format_e. intros H. inv_ok. apply pad_left_safe, float_e_body_safe.
Qed.

(* ------------------------------------------------------------------ *)
(** ** Buffers hold only blank-safe characters *)

Lemma make_line_safe (n : nat) : Forall blank_safe (make_line n).
Proof. induction n; simpl; constructor; auto. left; reflexivity. Qed.

Lemma place_chars_safe (cs line line' : list ascii) (idx : Z) :
  Forall blank_safe line -> Forall blank_safe cs ->
  place_chars line idx cs = Ok line' -> Forall blank_safe line'.
Proof.
  revert line idx. induction cs as [|c cs IH]; intros line idx Hl Hc H; simpl in H.
  - injection H as <-. exact Hl.
  - inversion Hc as [|? ? Hc1 Hc2]; subst. inv_ok.
    eapply IH; [| exact Hc2 | eassumption].
    unfold py_setitem in Ha.
    destruct (_ && _); [injection Ha as <-; by apply Forall_insert|].
    destruct (_ && _); [injection Ha as <-; by apply Forall_insert|discriminate].
Qed.

Lemma place_str_safe (line line' : list ascii) (col : Z) (text : string) :
  Forall blank_safe line -> Forall blank_safe (list_ascii_of_string text) ->
  place_str line col text = Ok line' -> Forall blank_safe line'.
Proof. apply place_chars_safe. Qed.

Lemma place_int_safe (r : record) (line line' : list ascii) (col : Z) (key : string)
    (w : nat) :
  place_int r line col key w = Ok line' -> Forall blank_safe line -> Forall blank_safe line'.
Proof.
  unfold place_int, fmt_int. intros H Hl. inv_ok.
  eapply place_str_safe; [exact Hl | | eassumption]. eapply format_d_safe; eassumption.
Qed.

Lemma place_semiss_safe (vals : list value) (line line' : list ascii) (i : nat) :
  place_semiss line i vals = Ok line' -> Forall blank_safe line -> Forall blank_safe line'.
Proof.
  revert line i. induction vals as [|v vals IH]; intros line i H Hl; simpl in H.
  - injection H as <-. exact Hl.
  - inv_ok. eapply IH; [eassumption|].
    eapply place_str_safe; [exact Hl | | eassumption].
    first [eapply format_f_safe; eassumption | apply pad_left_safe, float_f_body_safe].
Qed.

Lemma semiss_loop_safe (v : value) (line line' : list ascii) :
  semiss_loop line v = Ok line' -> Forall blank_safe line -> Forall blank_safe line'.
Proof.
  destruct v as [| | | s | vals |]; simpl; intros H Hl; try discriminate.
  - destruct s as [|c s']; [injection H as <-; exact Hl | discriminate].
  - eapply place_semiss_safe; eassumption.
Qed.

Lemma place_layer_safe fs (r : record) (keys : list string) (line line' : list ascii) (i : nat) :
  place_layer fs r line i keys = Ok line' -> Forall blank_safe line -> Forall blank_safe line'.
Proof.
  revert line i. induction keys as [|k keys IH]; intros line i H Hl; simpl in H.
  - injection H as <-. exact Hl.
  - inv_ok. eapply IH; [eassumption|].
    eapply place_str_safe; [exact Hl | | eassumption].
    first [eapply format_f_safe; eassumption | apply pad_left_safe, float_f_body_safe].
Qed.

(* ------------------------------------------------------------------ *)
(** ** [rstrip] *)

Lemma drop_spaces_split (l : list ascii) :
  exists p, l = app p (drop_spaces l) /\ Forall (fun c => is_space c = true) p.
Proof.
  induction l as [|c l (p & Hp & Hsp)]; simpl; [exists []; auto|].
  destruct (is_space c) eqn:Hc.
  - exists (c :: p). simpl. rewrite <- Hp. auto.
  - exists []. auto.
Qed.

Lemma rstrip_split (l : list ascii) :
  exists t, l = app (rstrip l) t /\ Forall (fun c => is_space c = true) t.
Proof.
  destruct (drop_spaces_split (rev l)) as (p & Hp & Hsp).
  exists (rev p). unfold rstrip. split.
  - rewrite <- rev_app_distr, <- Hp, rev_involutive. reflexivity.
  - by apply Forall_rev.
Qed.

(** A blank-safe character keeps its column through [rstrip]. *)
Lemma nth_rstrip (l : list ascii) (i : nat) :
  blank_safe (nth i l " "%char) -> nth i (rstrip l) " "%char = nth i l " "%char.
Proof.
  intros Hs. destruct (rstrip_split l) as (t & Ht & Hsp).
  remember (rstrip l) as r eqn:Hr. clear Hr. subst l.
  destruct (Nat.lt_ge_cases i (length r)) as [Hi | Hi].
  - by rewrite app_nth1.
  - rewrite app_nth2 in Hs |- * by exact Hi. rewrite nth_overflow by exact Hi.
    destruct (Nat.lt_ge_cases (i - length r) (length t)) as [Hj | Hj].
    + eapply List.Forall_forall in Hsp; [|apply (nth_In t " "%char Hj)].
      cbv beta in Hsp. destruct Hs as [Hs | Hs]; [by rewrite Hs | congruence].
    + by rewrite nth_overflow.
Qed.

Lemma col_at_line_to_str (line : list ascii) (i : nat) :
  blank_safe (nth i line " "%char) -> col_at (line_to_str line) (S i) = nth i line " "%char.
Proof.
  intros Hs. unfold col_at, line_to_str.
  rewrite list_ascii_of_string_of_list_ascii, Nat.sub_1_r. simpl. by apply nth_rstrip.
Qed.

Lemma rstrip_safe (l : list ascii) : Forall blank_safe l -> Forall blank_safe (rstrip l).
Proof.
  intros H. destruct (rstrip_split l) as (t & Ht & _). rewrite Ht in H.
  by apply Forall_app in H as [H _].
Qed.

Lemma line_to_str_safe (line : list ascii) :
  Forall blank_safe line -> Forall blank_safe (list_ascii_of_string (line_to_str line)).
Proof.
  intros H. unfold line_to_str. rewrite list_ascii_of_string_of_list_ascii.
  by apply rstrip_safe.
Qed.

(* ------------------------------------------------------------------ *)
(** ** Every record line is made of blank-safe characters *)

Ltac buf_safe :=
  repeat match goal with
  | |- Forall blank_safe (make_line _) => apply make_line_safe
  | H : place_int _ ?l _ _ _ = Ok ?l' |- Forall blank_safe ?l' =>
      apply (place_int_safe _ l l' _ _ _ H)
  | H : semiss_loop ?l _ = Ok ?l' |- Forall blank_safe ?l' =>
      apply (semiss_loop_safe _ l l' H)
  | H : place_layer _ _ ?l _ _ = Ok ?l' |- Forall blank_safe ?l' =>
      apply (place_layer_safe _ _ _ l l' _ H)
  | H : place_str ?l _ _ = Ok ?l' |- Forall blank_safe ?l' =>
      eapply (place_str_safe l l'); [ | | exact H]
  | H : format_f _ _ _ = Ok ?s |- Forall blank_safe (list_ascii_of_string ?s) =>
      apply (format_f_safe _ _ _ _ H)
  | H : fmt_float_f _ _ _ = Ok ?s |- Forall blank_safe (list_ascii_of_string ?s) =>
      apply (format_f_safe _ _ _ _ H)
  | |- Forall blank_safe (list_ascii_of_string (pad_left _ _)) =>
      apply pad_left_safe; first [apply float_f_body_safe | apply int_repr_safe]
  | |- Forall blank_safe (list_ascii_of_string _) => apply lit_safe; reflexivity
  end.

Lemma build_record_1_2_safe (cfg : config) (s : string) :
  build_record_1_2 cfg = Ok s -> Forall blank_safe (list_ascii_of_string s).
Proof. unfold build_record_1_2. intros H. inv_ok. apply line_to_str_safe. buf_safe. Qed.

Lemma build_record_1_4_safe (cfg : config) (s : string) :
  build_record_1_4 cfg = Ok s -> Forall blank_safe (list_ascii_of_string s).
Proof. unfold build_record_1_4. intros H. inv_ok. apply line_to_str_safe. buf_safe. Qed.

Lemma build_record_3_1_safe (cfg : config) (s : string) :
  build_record_3_1 cfg = Ok s -> Forall blank_safe (list_ascii_of_string s).
Proof. unfold build_record_3_1. intros H. inv_ok. all: apply line_to_str_safe; buf_safe. Qed.

Lemma build_record_3_2_safe (cfg : config) (s : string) :
  build_record_3_2 cfg = Ok s -> Forall blank_safe (list_ascii_of_string s).
Proof. unfold build_record_3_2. intros H. inv_ok. apply line_to_str_safe. buf_safe. Qed.

Lemma build_record_3_3a_safe fs (cfg : config) (s : string) :
  build_record_3_3a fs cfg = Ok s -> Forall blank_safe (list_ascii_of_string s).
Proof. unfold build_record_3_3a. intros H. inv_ok. apply line_to_str_safe. buf_safe. Qed.

Lemma safe_nl_free (s : string) :
  Forall blank_safe (list_ascii_of_string s) -> nl_free s.
Proof. intros H. eapply Forall_impl; [exact H | apply blank_safe_not_nl]. Qed.

(* ------------------------------------------------------------------ *)
(** ** Joining and splitting the document *)

Lemma str_app_cons (x : ascii) (a b : string) : String x a ++ b = String x (a ++ b).
Proof. reflexivity. Qed.

Lemma str_app_assoc (a b c : string) : (a ++ b) ++ c = a ++ (b ++ c).
Proof.
  induction a as [|x a IH]; [reflexivity|]. rewrite !str_app_cons. by rewrite IH.
Qed.

Lemma str_app_nil (a : string) : a ++ "" = a.
Proof. induction a as [|x a IH]; [reflexivity|]. rewrite str_app_cons. by rewrite IH. Qed.

Lemma text_lines_cons (l rest : string) :
  nl_free l -> text_lines (l ++ newline ++ rest) = l :: text_lines rest.
Proof.
  induction l as [|c l IH]; intros Hl; [reflexivity|].
  inversion Hl as [|? ? Hc Hl']; subst. rewrite str_app_cons. simpl.
  rewrite (IH Hl'). destruct (Ascii.eqb c "010"%char) eqn:E; [|reflexivity].
  apply Ascii.eqb_eq in E. contradiction.
Qed.

(** [sep.join(items)] succeeds exactly on lists of strings, and is then
    Stdlib's [String.concat]. *)
Lemma py_join_strs (sep : string) (vs : list value) (s : string) :
  py_join sep vs = Ok s -> exists ls, vs = map VStr ls /\ s = String.concat sep ls.
Proof.
  revert s. induction vs as [|v vs IH]; intros s H; simpl in H.
  - injection H as <-. exists []. auto.
  - destruct v; try discriminate. destruct vs as [|v' vs'].
    + injection H as <-. exists [s0]. auto.
    + inv_ok. destruct (IH a eq_refl) as (ls & Hls & ->).
      exists (s0 :: ls). rewrite Hls. split; [reflexivity|].
      destruct ls; [discriminate|reflexivity].
Qed.

Lemma py_join_map (sep : string) (ls : list string) :
  py_join sep (map VStr ls) = Ok (String.concat sep ls).
Proof.
  induction ls as [|x ls IH]; [reflexivity|].
  destruct ls as [|y ls]; [reflexivity|].
  change (py_join sep (map VStr (x :: y :: ls)))
    with (bind (py_join sep (map VStr (y :: ls))) (fun t => Ok (x ++ sep ++ t))).
  rewrite IH. reflexivity.
Qed.

(** The lines of a joined document ending in a newline. *)
Lemma text_lines_concat (ls : list string) :
  ls <> [] -> Forall nl_free ls ->
  text_lines (String.concat newline ls ++ newline) = ls.
Proof.
  induction ls as [|x ls IH]; intros Hne Hf; [congruence|].
  inversion Hf as [|? ? Hx Hf']; subst.
  destruct ls as [|y ls].
  - simpl. rewrite <- (str_app_nil newline), text_lines_cons by exact Hx. reflexivity.
  - change (String.concat newline (x :: y :: ls))
      with (x ++ newline ++ String.concat newline (y :: ls)).
    rewrite !str_app_assoc, text_lines_cons by exact Hx.
    rewrite IH; [reflexivity | discriminate | exact Hf'].
Qed.

Lemma concat_snoc (sep x : string) (ls : list string) :
  ls <> [] -> String.concat sep (ls ++ [x]) = String.concat sep ls ++ sep ++ x.
Proof.
  induction ls as [|y ls IH]; intros Hne; [congruence|].
  destruct ls as [|z ls]; [reflexivity|].
  change (String.concat sep ((y :: z :: ls) ++ [x]))
    with (y ++ sep ++ String.concat sep ((z :: ls) ++ [x])).
  rewrite IH by discriminate. simpl. rewrite !str_app_assoc. reflexivity.
Qed.

Lemma build_record_1_1_shape (cfg : config) (hv : list value) :
  build_record_1_1 cfg = Ok hv -> exists h c, hv = [h; c].
Proof. unfold build_record_1_1. intros H. inv_ok. eauto. Qed.

(** The builders read only their own record. *)
Lemma build_record_1_1_ext (cfg cfg' : config) :
  cfg' !! "record_1_1" = cfg !! "record_1_1" -> build_record_1_1 cfg' = build_record_1_1 cfg.
Proof.
  intros H. unfold build_record_1_1.
  replace (getitem cfg' "record_1_1") with (getitem cfg "record_1_1")
    by (unfold getitem; by rewrite H).
  reflexivity.
Qed.

Lemma build_record_1_2_ext (cfg cfg' : config) :
  cfg' !! "record_1_2" = cfg !! "record_1_2" -> build_record_1_2 cfg' = build_record_1_2 cfg.
Proof.
  intros H. unfold build_record_1_2.
  replace (getitem cfg' "record_1_2") with (getitem cfg "record_1_2")
    by (unfold getitem; by rewrite H).
  reflexivity.
Qed.

Lemma build_record_1_4_ext (cfg cfg' : config) :
  cfg' !! "record_1_4" = cfg !! "record_1_4" -> build_record_1_4 cfg' = build_record_1_4 cfg.
Proof.
  intros H. unfold build_record_1_4.
  replace (getitem cfg' "record_1_4") with (getitem cfg "record_1_4")
    by (unfold getitem; by rewrite H).
  reflexivity.
Qed.

Lemma getitem_same {A} (d d' : gmap string A) (k : string) :
  d' !! k = d !! k -> getitem d' k = getitem d k.
Proof. unfold getitem. by intros ->. Qed.

Lemma build_record_3_1_ext (cfg cfg' : config) :
  cfg' !! "record_3_1" = cfg !! "record_3_1" -> build_record_3_1 cfg' = build_record_3_1 cfg.
Proof. intros H. unfold build_record_3_1. by rewrite (getitem_same _ _ _ H). Qed.

Lemma build_record_3_2_ext (cfg cfg' : config) :
  cfg' !! "record_3_2" = cfg !! "record_3_2" -> build_record_3_2 cfg' = build_record_3_2 cfg.
Proof. intros H. unfold build_record_3_2. by rewrite (getitem_same _ _ _ H). Qed.

Lemma build_record_3_3a_ext fs (cfg cfg' : config) :
  cfg' !! "record_3_3a" = cfg !! "record_3_3a" ->
  build_record_3_3a fs cfg' = build_record_3_3a fs cfg.
Proof. intros H. unfold build_record_3_3a. by rewrite (getitem_same _ _ _ H). Qed.

Lemma getitem_some {A} (d : gmap string A) (k : string) (v : A) :
  d !! k = Some v -> getitem d k = Ok v.
Proof. unfold getitem. by intros ->. Qed.

Lemma map_VStr_inj (l1 l2 : list string) : map VStr l1 = map VStr l2 -> l1 = l2.
Proof.
  revert l2. induction l1 as [|x l1 IH]; intros [|y l2] H; simpl in H; try discriminate;
    [reflexivity|]. injection H as -> H. f_equal. by apply IH.
Qed.

(** The document is the list of lines joined by newlines, plus a final
    newline. *)
Lemma generate_doc fs (cfg : config) (doc : string) :
  generate_input_rrtm fs cfg = Ok doc ->
  exists ls, generate_lines fs cfg = Ok (map VStr ls) /\ doc = String.concat newline ls ++ newline.
Proof.
  unfold generate_input_rrtm. intros H. inv_ok.
  destruct (py_join_strs _ _ _ Ha0) as (ls & -> & ->). eauto.
Qed.

Lemma build_record_1_1_ok (cfg : config) (r11 : record) (h c : value) :
  cfg !! "record_1_1" = Some r11 -> r11 !! "header" = Some h ->
  r11 !! "control_line" = Some c -> build_record_1_1 cfg = Ok [h; c].
Proof.
  intros H1 H2 H3. unfold build_record_1_1.
  rewrite (getitem_some _ _ _ H1); cbn [bind].
  rewrite (getitem_some _ _ _ H2); cbn [bind].
  rewrite (getitem_some _ _ _ H3). reflexivity.
Qed.

(* ------------------------------------------------------------------ *)
(** ** C1: the document for IATM = 1 and IBMAX = 0 *)

(** C1 (counterexample): for a configuration with IATM = 1 and
    IBMAX = 0 the document has 8 lines, not 9. *)
Lemma generate_nine_lines_counterexample :
  (rec_1_2 1 0) !! "IATM" = Some (VInt 1) /\ rec_3_1 !! "IBMAX" = Some (VInt 0) /\
  exists doc, generate_input_rrtm float_of_str_none (cfg_full 1 0) = Ok doc /\
    length (text_lines doc) = 8 /\ length (text_lines doc) <> 9.
Proof.
  split; [reflexivity|]. split; [reflexivity|].
  eexists. split; [vm_compute; reflexivity|]. vm_compute. split; [reflexivity | lia].
Qed.

(** C1 (amended): when IATM is 1 and IBMAX is 0 and the two header
    strings contain no newline, the document consists of exactly 8
    lines: the 2 header lines, the control-flags line, the
    surface-properties line, the atmospheric-profile line, the
    altitude-boundary line, the layer-generation line and a final empty
    line. *)
Theorem generate_iatm1_ibmax0_lines fs (cfg : config) (r11 r12 r31 : record)
    (h c doc : string) :
  cfg !! "record_1_1" = Some r11 -> r11 !! "header" = Some (VStr h) ->
  r11 !! "control_line" = Some (VStr c) -> nl_free h -> nl_free c ->
  cfg !! "record_1_2" = Some r12 -> r12 !! "IATM" = Some (VInt 1) ->
  cfg !! "record_3_1" = Some r31 -> r31 !! "IBMAX" = Some (VInt 0) ->
  generate_input_rrtm fs cfg = Ok doc ->
  exists l12 l14 l31 l32 l33,
    build_record_1_2 cfg = Ok l12 /\ build_record_1_4 cfg = Ok l14 /\
    build_record_3_1 cfg = Ok l31 /\ build_record_3_2 cfg = Ok l32 /\
    build_record_3_3a fs cfg = Ok l33 /\
    text_lines doc = [h; c; l12; l14; l31; l32; l33; ""] /\
    length (text_lines doc) = 8.
Proof.
  intros H11 Hh Hc Hnh Hnc H12 Hiatm H31 Hib Hgen.
  apply generate_doc in Hgen as (ls & Hgen & ->).
  unfold generate_lines in Hgen.
  rewrite (build_record_1_1_ok _ _ _ _ H11 Hh Hc) in Hgen; cbn [bind] in Hgen.
  destruct (build_record_1_2 cfg) as [l12|] eqn:E12; [|discriminate]; cbn [bind] in Hgen.
  destruct (build_record_1_4 cfg) as [l14|] eqn:E14; [|discriminate]; cbn [bind] in Hgen.
  rewrite (getitem_some _ _ _ H12) in Hgen; cbn [bind] in Hgen.
  rewrite (getitem_some _ _ _ Hiatm) in Hgen; cbn [bind] in Hgen.
  destruct (build_record_3_1 cfg) as [l31|] eqn:E31; [|discriminate]; cbn [bind] in Hgen.
  destruct (build_record_3_2 cfg) as [l32|] eqn:E32; [|discriminate]; cbn [bind] in Hgen.
  rewrite (getitem_some _ _ _ H31) in Hgen; cbn [bind] in Hgen.
  unfold dict_get in Hgen. rewrite Hib in Hgen. cbn [bind] in Hgen.
  destruct (build_record_3_3a fs cfg) as [l33|] eqn:E33; [|discriminate]; cbn [bind] in Hgen.
  injection Hgen as Hls.
  change (map VStr [h; c; l12; l14; l31; l32; l33; ""] = map VStr ls) in Hls.
  apply map_VStr_inj in Hls. subst ls.
  exists l12, l14, l31, l32, l33. do 5 (split; [reflexivity|]).
  assert (Hlines : text_lines (String.concat newline [h; c; l12; l14; l31; l32; l33; ""] ++ newline)
                   = [h; c; l12; l14; l31; l32; l33; ""]).
  { apply text_lines_concat; [discriminate|].
    repeat constructor; auto; apply safe_nl_free;
      eauto using build_record_1_2_safe, build_record_1_4_safe, build_record_3_1_safe,
        build_record_3_2_safe, build_record_3_3a_safe. }
  rewrite Hlines. split; reflexivity.
Qed.

Lemma generate_iatm1_ibmax0_lines_witness :
  exists doc, generate_input_rrtm float_of_str_none (cfg_full 1 0) = Ok doc /\
  exists l12 l14 l31 l32 l33,
    build_record_1_2 (cfg_full 1 0) = Ok l12 /\ build_record_1_4 (cfg_full 1 0) = Ok l14 /\
    build_record_3_1 (cfg_full 1 0) = Ok l31 /\ build_record_3_2 (cfg_full 1 0) = Ok l32 /\
    build_record_3_3a float_of_str_none (cfg_full 1 0) = Ok l33 /\
    text_lines doc = ["$ RRTM"; "$ control"; l12; l14; l31; l32; l33; ""] /\
    length (text_lines doc) = 8.
Proof.
  eexists. split; [vm_compute; reflexivity|].
  apply (generate_iatm1_ibmax0_lines float_of_str_none (cfg_full 1 0) rec_1_1 (rec_1_2 1 0) rec_3_1);
    try reflexivity; try (vm_compute; reflexivity); repeat constructor; discriminate.
Defined.

(* ------------------------------------------------------------------ *)
(** ** C5: no profile records when IATM = 0 *)

Lemma generate_lines_iatm0 fs (cfg : config) (r12 : record) (hv : list value)
    (l12 l14 : string) :
  cfg !! "record_1_2" = Some r12 -> r12 !! "IATM" = Some (VInt 0) ->
  build_record_1_1 cfg = Ok hv -> build_record_1_2 cfg = Ok l12 ->
  build_record_1_4 cfg = Ok l14 ->
  generate_lines fs cfg = Ok (app hv [VStr l12; VStr l14; VStr ""]).
Proof.
  intros H12 Hiatm E11 E12 E14. unfold generate_lines.
  rewrite E11, E12, E14; cbn [bind].
  rewrite (getitem_some _ _ _ H12); cbn [bind].
  rewrite (getitem_some _ _ _ Hiatm); cbn [bind].
  reflexivity.
Qed.

(** C5: when IATM is 0 the document is the two header lines, the
    control-flags line, the surface-properties line and the final empty
    line: no atmospheric-profile, altitude-boundary or layer-generation
    line.  It does not depend on record 3.1 (where IBMAX lives), 3.2
    or 3.3A at all: any configuration with the same records 1.1, 1.2
    and 1.4 yields the same document. *)
Theorem generate_iatm0_no_profile fs (cfg : config) (r12 : record) (doc : string) :
  cfg !! "record_1_2" = Some r12 -> r12 !! "IATM" = Some (VInt 0) ->
  generate_input_rrtm fs cfg = Ok doc ->
  exists h c l12 l14,
    build_record_1_1 cfg = Ok [VStr h; VStr c] /\ build_record_1_2 cfg = Ok l12 /\
    build_record_1_4 cfg = Ok l14 /\
    doc = String.concat newline [h; c; l12; l14; ""] ++ newline /\
    (forall cfg' : config,
       cfg' !! "record_1_1" = cfg !! "record_1_1" ->
       cfg' !! "record_1_2" = cfg !! "record_1_2" ->
       cfg' !! "record_1_4" = cfg !! "record_1_4" ->
       generate_input_rrtm fs cfg' = Ok doc).
Proof.
  intros H12 Hiatm Hgen.
  apply generate_doc in Hgen as (ls & Hgen & ->).
  destruct (build_record_1_1 cfg) as [hv|] eqn:E11;
    [|unfold generate_lines in Hgen; rewrite E11 in Hgen; discriminate].
  destruct (build_record_1_2 cfg) as [l12|] eqn:E12;
    [|unfold generate_lines in Hgen; rewrite E11, E12 in Hgen; discriminate].
  destruct (build_record_1_4 cfg) as [l14|] eqn:E14;
    [|unfold generate_lines in Hgen; rewrite E11, E12, E14 in Hgen; discriminate].
  rewrite (generate_lines_iatm0 fs cfg r12 hv l12 l14 H12 Hiatm E11 E12 E14) in Hgen.
  injection Hgen as Hls.
  destruct (build_record_1_1_shape _ _ E11) as (hv1 & hv2 & ->).
  destruct ls as [|s1 [|s2 [|s3 [|s4 [|s5 [|s6 ls]]]]]]; simpl in Hls; try discriminate.
  injection Hls as -> -> <- <- <-.
  exists s1, s2, l12, l14. do 4 (split; [reflexivity|]).
  intros cfg' E1 E2 E4.
  unfold generate_input_rrtm.
  rewrite (generate_lines_iatm0 fs cfg' r12 [VStr s1; VStr s2] l12 l14);
    [| by rewrite E2 | exact Hiatm | by rewrite (build_record_1_1_ext cfg cfg' E1)
     | by rewrite (build_record_1_2_ext cfg cfg' E2)
     | by rewrite (build_record_1_4_ext cfg cfg' E4)].
  cbn [bind].
  change (app [VStr s1; VStr s2] [VStr l12; VStr l14; VStr ""])
    with (map VStr [s1; s2; l12; l14; ""]).
  rewrite py_join_map. reflexivity.
Qed.

Lemma generate_iatm0_no_profile_witness :
  exists doc, generate_input_rrtm float_of_str_none (cfg_full 0 0) = Ok doc /\
  exists h c l12 l14,
    build_record_1_1 (cfg_full 0 0) = Ok [VStr h; VStr c] /\
    build_record_1_2 (cfg_full 0 0) = Ok l12 /\ build_record_1_4 (cfg_full 0 0) = Ok l14 /\
    doc = String.concat newline [h; c; l12; l14; ""] ++ newline /\
    (forall cfg' : config,
       cfg' !! "record_1_1" = cfg_full 0 0 !! "record_1_1" ->
       cfg' !! "record_1_2" = cfg_full 0 0 !! "record_1_2" ->
       cfg' !! "record_1_4" = cfg_full 0 0 !! "record_1_4" ->
       generate_input_rrtm float_of_str_none cfg' = Ok doc).
Proof.
  eexists. split; [vm_compute; reflexivity|].
  apply (generate_iatm0_no_profile float_of_str_none (cfg_full 0 0) (rec_1_2 0 0));
    try reflexivity; vm_compute; reflexivity.
Defined.

(* ------------------------------------------------------------------ *)
(** ** C6: the shape of the document text *)

Lemma generate_lines_last fs (cfg : config) (vs : list value) :
  generate_lines fs cfg = Ok vs ->
  exists vs', vs = app vs' [VStr ""] /\ 2 <= length vs'.
Proof.
  intros H.
  assert (Hl : List.last vs VNone = VStr "" /\ 3 <= length vs).
  { unfold generate_lines in H. inv_ok.
    all: destruct (build_record_1_1_shape _ _ Ha) as (h & c & ->).
    all: split; [reflexivity | simpl; lia]. }
  destruct Hl as [Hl Hlen].
  assert (Hvs : vs = app (removelast vs) [VStr ""]).
  { rewrite <- Hl. apply app_removelast_last. intros ->. simpl in Hlen. lia. }
  exists (removelast vs). split; [exact Hvs|].
  rewrite Hvs, length_app in Hlen. simpl in Hlen. lia.
Qed.

(** C6: the document is the list of finished lines, the last of which is
    the terminating empty line, joined by single newlines, followed by
    one more newline; so it always ends in two newlines. *)
Theorem generate_document_text fs (cfg : config) (doc : string) :
  generate_input_rrtm fs cfg = Ok doc ->
  exists ls, generate_lines fs cfg = Ok (map VStr (app ls [""])) /\
    doc = String.concat newline (app ls [""]) ++ newline /\
    exists pre, doc = pre ++ newline ++ newline.
Proof.
  intros Hgen. apply generate_doc in Hgen as (ls' & Hgen & ->).
  destruct (generate_lines_last _ _ _ Hgen) as (vs' & Hvs & Hlen).
  destruct ls' as [|s0 ls0] eqn:Els; [destruct vs'; discriminate|].
  rewrite <- Els in Hvs, Hgen |- *.
  destruct (exists_last (l := ls') ltac:(congruence)) as (ls & x & ->).
  + rewrite map_app in Hvs. apply app_inj_tail in Hvs as [Hvs Hx].
    injection Hx as ->.
    exists ls. split; [exact Hgen|]. split; [reflexivity|].
    assert (Hne : ls <> []) by (intros ->; subst vs'; simpl in Hlen; lia).
    exists (String.concat newline ls).
    rewrite concat_snoc by exact Hne. rewrite str_app_nil, str_app_assoc. reflexivity.
Qed.

Lemma generate_document_text_witness :
  exists doc, generate_input_rrtm float_of_str_none (cfg_full 1 0) = Ok doc /\
  exists ls, generate_lines float_of_str_none (cfg_full 1 0) = Ok (map VStr (app ls [""])) /\
    doc = String.concat newline (app ls [""]) ++ newline /\
    exists pre, doc = pre ++ newline ++ newline.
Proof.
  eexists. split; [vm_compute; reflexivity|].
  apply (generate_document_text float_of_str_none (cfg_full 1 0)). vm_compute. reflexivity.
Defined.

(* ------------------------------------------------------------------ *)
(** ** C3: widths are minimums, overflow is not detected *)

Lemma length_string_of_list_ascii (l : list ascii) :
  String.length (string_of_list_ascii l) = length l.
Proof. induction l as [|c l IH]; simpl; auto. Qed.

Lemma str_length_app (a b : string) : String.length (a ++ b) = String.length a + String.length b.
Proof. induction a as [|c a IH]; [reflexivity|]. rewrite str_app_cons. simpl. by rewrite IH. Qed.

Lemma pad_left_length (w : nat) (s : string) :
  String.length (pad_left w s) = Nat.max w (String.length s).
Proof.
  unfold pad_left, spaces. rewrite str_length_app, length_string_of_list_ascii, repeat_length.
  lia.
Qed.

(** C3 (counterexample): an IAER of 100 does not fit its 2 columns;
    [fmt_int] returns the 3-character rendering and the document is
    generated without any error. *)
Lemma fmt_int_overflow_counterexample :
  fmt_int (VInt 100) 2 = Ok "100" /\ String.length "100" <> 2 /\
  exists doc, generate_input_rrtm float_of_str_none (cfg_full 0 100) = Ok doc.
Proof.
  split; [reflexivity|]. split; [discriminate|].
  eexists. vm_compute. reflexivity.
Qed.

(** C3 (amended): the formatters never fail on a number; the width is
    a minimum: the result is the value's rendering padded on the left to
    the width, so its length is the larger of the width and the
    rendering's length, and a wider rendering is returned whole. *)
Theorem formatters_pad_to_min_width :
  (forall (n : Z) (w : nat),
     fmt_int (VInt n) w = Ok (pad_left w (int_repr n)) /\
     String.length (pad_left w (int_repr n)) = Nat.max w (String.length (int_repr n))) /\
  (forall (x : pyfloat) (w d : nat),
     fmt_float_f (VFloat x) w d = Ok (pad_left w (float_f_body x d)) /\
     String.length (pad_left w (float_f_body x d))
       = Nat.max w (String.length (float_f_body x d))) /\
  (forall (x : pyfloat) (w d : nat),
     let body := if py_eq_num (VFloat x) 0 then float_f_body x d else float_e_body x d in
     fmt_float_e (VFloat x) w d = Ok (pad_left w body) /\
     String.length (pad_left w body) = Nat.max w (String.length body)).
Proof.
  split; [|split].
  - intros n w. split; [reflexivity | apply pad_left_length].
  - intros x w d. split; [reflexivity | apply pad_left_length].
  - intros x w d body. split; [|apply pad_left_length].
    unfold fmt_float_e, body. destruct (py_eq_num (VFloat x) 0); reflexivity.
Qed.

(* ------------------------------------------------------------------ *)
(** ** C8: fixed-point rendering with zero fractional digits *)

(** C8 (code bug): with 0 fractional digits, as record 3.3A uses, the
    fixed-point formatter prints no decimal point: [5.0] becomes
    ["         5"]; the layer-generation line carries no decimal point. *)
Theorem fmt_float_f_zero_decimals_no_point :
  fmt_float_f (fl false 5 0) 10 0 = Ok "         5" /\
  build_record_3_3a float_of_str_none (cfg_full 1 0)
    = Ok "         5         0         0         0         0".
Proof. split; vm_compute; reflexivity. Qed.

(* ------------------------------------------------------------------ *)
(** ** Reading columns back from a finished line *)

Lemma place_str_out (line line' : list ascii) (col : Z) (text : string) (p : nat) :
  (1 <= col)%Z -> place_str line col text = Ok line' ->
  p < Z.to_nat (col - 1) \/ Z.to_nat (col - 1) + String.length text <= p ->
  line' !! p = line !! p.
Proof. intros H1 H Hp. apply place_str_ok in H as (_ & _ & H); auto. Qed.

Lemma place_str_at (line line' : list ascii) (col : Z) (text : string) (k : nat) :
  (1 <= col)%Z -> place_str line col text = Ok line' -> k < String.length text ->
  line' !! (Z.to_nat (col - 1) + k) = String.get k text.
Proof. intros H1 H Hk. apply place_str_ok in H as (_ & H & _); auto. Qed.

Lemma int_fits_fmt (r : record) (key : string) (w : nat) (v : value) (s : string) :
  int_fits r key w -> r !! key = Some v -> fmt_int v w = Ok s -> String.length s = w.
Proof.
  intros (n & Hn & Hw) Hv Hs. rewrite Hn in Hv. injection Hv as <-.
  simpl in Hs. injection Hs as <-. rewrite pad_left_length. lia.
Qed.

Lemma place_int_out (r : record) (line line' : list ascii) (col : Z) (key : string)
    (w p : nat) :
  (1 <= col)%Z -> int_fits r key w -> place_int r line col key w = Ok line' ->
  p < Z.to_nat (col - 1) \/ Z.to_nat (col - 1) + w <= p ->
  line' !! p = line !! p.
Proof.
  intros H1 Hf H Hp. unfold place_int in H. inv_ok.
  unfold getitem in Ha. destruct (r !! key) eqn:Hk; [|discriminate].
  injection Ha as ->. eapply place_str_out; [exact H1 | eassumption |].
  erewrite int_fits_fmt; eauto.
Qed.

Lemma make_line_lookup (n p : nat) : p < n -> make_line n !! p = Some " "%char.
Proof.
  unfold make_line. revert p. induction n as [|n IH]; intros [|p] Hp; simpl; try lia; auto.
  apply IH. lia.
Qed.

Lemma col_of_buffer (line : list ascii) (i : nat) (c : ascii) :
  line !! i = Some c -> blank_safe c -> col_at (line_to_str line) (S i) = c.
Proof.
  intros H Hs. pose proof (nth_lookup_Some line i " "%char c H) as E.
  rewrite <- E in Hs |- *. by apply col_at_line_to_str.
Qed.

Lemma nth_map_seq {A} (f : nat -> A) (n k : nat) (d : A) :
  k < n -> nth k (map f (seq 0 n)) d = f k.
Proof.
  intros Hk. rewrite (nth_indep _ d (f 0)) by (rewrite length_map, length_seq; lia).
  rewrite map_nth, seq_nth by exact Hk. reflexivity.
Qed.

Lemma slot_of_buffer (line : list ascii) (col w : nat) (text : string) :
  w = String.length text -> 1 <= col ->
  (forall k, k < String.length text -> line !! (col - 1 + k) = String.get k text) ->
  Forall blank_safe (list_ascii_of_string text) ->
  slot (line_to_str line) col w = text.
Proof.
  intros -> H1 Hin Hs. unfold slot.
  rewrite <- (string_of_list_ascii_of_string text) at 2. f_equal.
  apply (nth_ext _ _ " "%char " "%char).
  - by rewrite length_map, length_seq, length_list_ascii.
  - intros k Hk. rewrite length_map, length_seq in Hk.
    rewrite nth_map_seq by exact Hk.
    pose proof (Hin k Hk) as Hk'. rewrite get_list_ascii in Hk'.
    destruct (list_ascii_of_string text !! k) as [c|] eqn:Hc;
      [| apply lookup_ge_None in Hc; rewrite <- length_list_ascii in Hc; lia].
    replace (col + k) with (S (col - 1 + k)) by lia.
    rewrite (col_of_buffer line _ c Hk').
    + symmetry. by apply nth_lookup_Some.
    + eapply List.Forall_forall; [exact Hs|]. apply list_elem_of_In, list_elem_of_lookup. eauto.
Qed.

Lemma place_int_before (r : record) (line line' : list ascii) (col : Z) (key : string)
    (w p : nat) :
  (1 <= col)%Z -> place_int r line col key w = Ok line' -> p < Z.to_nat (col - 1) ->
  line' !! p = line !! p.
Proof. intros H1 H Hp. unfold place_int in H. inv_ok. eapply place_str_before; eauto. Qed.

Lemma place_semiss_before (vals : list value) (line line' : list ascii) (i p : nat) :
  place_semiss line i vals = Ok line' -> p < 15 + 5 * i -> line' !! p = line !! p.
Proof.
  revert line i. induction vals as [|v vals IH]; intros line i H Hp; simpl in H.
  - by injection H as <-.
  - inv_ok. erewrite IH by (eassumption || lia).
    eapply place_str_before; [| eassumption |]; lia.
Qed.

Lemma semiss_loop_before (v : value) (line line' : list ascii) (p : nat) :
  semiss_loop line v = Ok line' -> p < 15 -> line' !! p = line !! p.
Proof.
  destruct v as [| | | s | vals |]; simpl; intros H Hp; try discriminate.
  - destruct s; [by injection H as <- | discriminate].
  - eapply place_semiss_before; [eassumption | lia].
Qed.

(** Walking a buffer position back through later placements that start
    after it. *)
Ltac back :=
  match goal with
  | H : semiss_loop ?l _ = Ok ?l' |- ?l' !! ?p = _ =>
      rewrite (semiss_loop_before _ l l' p H) by lia
  | H : place_int _ ?l ?c _ _ = Ok ?l' |- ?l' !! ?p = _ =>
      rewrite (place_int_before _ l l' c _ _ p ltac:(lia) H) by lia
  | H : place_str ?l ?c _ = Ok ?l' |- ?l' !! ?p = _ =>
      rewrite (place_str_before l l' c _ p ltac:(lia) H) by lia
  end.

(** Reading back a text placed at column 1 of a finished line. *)
Lemma read_placed (line : list ascii) (text : string) (k : nat) :
  (k < String.length text -> line !! k = String.get k text) ->
  (String.length text <= k -> line !! k = Some " "%char) ->
  Forall blank_safe (list_ascii_of_string text) ->
  col_at (line_to_str line) (S k) = nth k (list_ascii_of_string text) " "%char.
Proof.
  intros Hin Hout Hs. destruct (Nat.lt_ge_cases k (String.length text)) as [Hk | Hk].
  - pose proof (Hin Hk) as Hc. rewrite get_list_ascii in Hc.
    destruct (list_ascii_of_string text !! k) as [c|] eqn:E;
      [| apply lookup_ge_None in E; rewrite <- length_list_ascii in E; lia].
    rewrite (nth_lookup_Some _ _ _ _ E). apply col_of_buffer; [exact Hc|].
    eapply List.Forall_forall; [exact Hs|]. apply list_elem_of_In, list_elem_of_lookup. eauto.
  - rewrite nth_overflow by (rewrite <- length_list_ascii; exact Hk).
    apply col_of_buffer; [exact (Hout Hk) | left; reflexivity].
Qed.

Lemma getitem_ok {A} (d : gmap string A) (k : string) (v : A) :
  getitem d k = Ok v -> d !! k = Some v.
Proof. unfold getitem. destruct (d !! k); congruence. Qed.

(** C10: the boundary temperature TBOUND of record 1.4 and the lower
    boundary HBOUND of record 3.2 are their [f"{x:.1f}"] renderings
    placed from column 1 on, with no padding: column [k+1] holds the
    [k]-th character of the rendering, and the columns after it up to
    the next field (column 11, resp. 10) are blank. *)
Theorem bounds_left_aligned (cfg : config) :
  (forall (r : record) (tb : value) (s L : string),
     cfg !! "record_1_4" = Some r -> r !! "TBOUND" = Some tb ->
     format_f tb 0 1 = Ok s -> build_record_1_4 cfg = Ok L ->
     forall k, k < 11 -> col_at L (S k) = nth k (list_ascii_of_string s) " "%char) /\
  (forall (r : record) (hb : value) (s L : string),
     cfg !! "record_3_2" = Some r -> r !! "HBOUND" = Some hb ->
     format_f hb 0 1 = Ok s -> build_record_3_2 cfg = Ok L ->
     forall k, k < 10 -> col_at L (S k) = nth k (list_ascii_of_string s) " "%char).
Proof.
  split; intros r v s L Hr Hv Hs HL k Hk.
  - unfold build_record_1_4 in HL. inv_ok.
    apply getitem_ok in Ha. rewrite Hr in Ha. injection Ha as <-.
    apply getitem_ok in Ha0. rewrite Hv in Ha0. injection Ha0 as <-.
    rewrite Hs in Ha1. injection Ha1 as <-.
    apply read_placed; [intros Hk' | intros Hk' | eapply format_f_safe; eassumption];
      repeat back.
    + replace k with (Z.to_nat (1 - 1) + k) by reflexivity.
      eapply place_str_at; [lia | eassumption | exact Hk'].
    + match goal with H : place_str (make_line _) 1 _ = Ok _ |- _ =>
        rewrite (place_str_out _ _ 1 _ k ltac:(lia) H) by lia end.
      apply make_line_lookup. lia.
  - unfold build_record_3_2 in HL. inv_ok.
    apply getitem_ok in Ha. rewrite Hr in Ha. injection Ha as <-.
    apply getitem_ok in Ha0. rewrite Hv in Ha0. injection Ha0 as <-.
    rewrite Hs in Ha1. injection Ha1 as <-.
    apply read_placed; [intros Hk' | intros Hk' | eapply format_f_safe; eassumption];
      repeat back.
    + replace k with (Z.to_nat (1 - 1) + k) by reflexivity.
      eapply place_str_at; [lia | eassumption | exact Hk'].
    + match goal with H : place_str (make_line _) 1 _ = Ok _ |- _ =>
        rewrite (place_str_out _ _ 1 _ k ltac:(lia) H) by lia end.
      apply make_line_lookup. lia.
Qed.

Lemma bounds_left_aligned_witness :
  build_record_1_4 (cfg_full 1 0) = Ok "288.0      1  0 0.98 0.98" /\
  build_record_3_2 (cfg_full 1 0) = Ok "0.0            100.0" /\
  (forall k, k < 11 ->
     col_at "288.0      1  0 0.98 0.98" (S k) = nth k (list_ascii_of_string "288.0") " "%char) /\
  (forall k, k < 10 ->
     col_at "0.0            100.0" (S k) = nth k (list_ascii_of_string "0.0") " "%char).
Proof.
  destruct (bounds_left_aligned (cfg_full 1 0)) as [A B].
  split; [vm_compute; reflexivity|]. split; [vm_compute; reflexivity|]. split.
  - intros k Hk. apply (A rec_1_4 (fl false 9 5) "288.0" "288.0      1  0 0.98 0.98");
      first [exact Hk | vm_compute; reflexivity].
  - intros k Hk. apply (B rec_3_2 (fl false 0 0) "0.0" "0.0            100.0");
      first [exact Hk | vm_compute; reflexivity].
Defined.

Lemma numeric_zero_eq (v : value) : numeric_zero v -> py_eq_num v 0 = true.
Proof. intros [-> | [-> | (s & e & ->)]]; [reflexivity | reflexivity |]. simpl. by destruct (ratio 0 e). Qed.

(** Walking a buffer position back through placements that do not
    cover it. *)
Ltac walk :=
  repeat first
  [ back
  | match goal with
    | H : place_int ?r ?l ?c ?key ?w = Ok ?l', Hf : int_fits ?r ?key ?w |- ?l' !! ?p = _ =>
        rewrite (place_int_out r l l' c key w p ltac:(lia) Hf H) by lia
    | H : place_str ?l ?c _ = Ok ?l' |- ?l' !! ?p = _ =>
        rewrite (place_str_out l l' c _ p ltac:(lia) H) by (simpl; lia)
    end ].

(** C4: in record 3.1, when every integer field fits its width, a
    radius of curvature RE that compares equal to 0 (absent, [0],
    [False] or a zero float) leaves columns 41-50 blank except for a
    single ["0"] in column 45; and a CO2MX that compares equal to 0
    puts a single ["0"] in column 71, with columns 72-80 blank as long
    as the RE rendering stays within its ten columns. *)
Theorem record_3_1_zero_fallback (cfg : config) (r : record) (L : string) :
  cfg !! "record_3_1" = Some r ->
  int_fits r "MODEL" 5 -> int_fits r "IBMAX" 5 -> int_fits r "NOPRNT" 5 ->
  int_fits r "NMOL" 5 -> int_fits r "IPUNCH" 5 -> int_fits r "MUNITS" 2 ->
  build_record_3_1 cfg = Ok L ->
  (numeric_zero (dict_get r "RE" (VInt 0)) -> slot L 41 10 = "    0     ") /\
  (numeric_zero (dict_get r "CO2MX" (VInt 0)) ->
     col_at L 71 = "0"%char /\
     ((forall s, fmt_float_f (dict_get r "RE" (VInt 0)) 10 3 = Ok s -> String.length s <= 10) ->
      slot L 71 10 = "0         ")).
Proof.
  intros Hr F1 F2 F3 F4 F5 F6 HL. unfold build_record_3_1 in HL. inv_ok.
  all: apply getitem_ok in Ha; rewrite Hr in Ha; injection Ha as <-.
  all: split; [intros Hz; apply numeric_zero_eq in Hz
              | intros Hz; apply numeric_zero_eq in Hz; split; [| intros Hfit]].
  all: try match goal with
       | Hz : py_eq_num ?v 0 = true, E : negb (py_eq_num ?v 0) = true |- _ =>
           rewrite Hz in E; discriminate E
       end.
  all: try (apply (slot_of_buffer _ _ _ "    0     "); [reflexivity | lia | intros k Hk; simpl in Hk | apply lit_safe; reflexivity]).
  all: try (apply (slot_of_buffer _ _ _ "0         "); [reflexivity | lia | intros k Hk; simpl in Hk | apply lit_safe; reflexivity]).
  all: try (change 71 with (S 70); apply col_of_buffer; [| right; reflexivity]).
  all: try match goal with
       | H : fmt_float_f _ 10 3 = Ok ?s, Hfit : forall s, _ -> _ |- _ =>
           pose proof (Hfit s H)
       end.
  all: walk.
  all: try (apply make_line_lookup; lia).
  all: try (exact (place_str_at _ _ 71 "0" 0 ltac:(lia) ltac:(eassumption) ltac:(simpl; lia))).
  all: match goal with
       | |- _ !! _ = get ?k "    0     " => destruct (decide (k = 4)) as [->|Hk4]
       | |- _ !! _ = get ?k "0         " => destruct (decide (k = 0)) as [->|Hk4]
       end.
  all: try (match goal with H : place_str ?l ?c "0" = Ok ?l' |- ?l' !! _ = _ =>
              exact (place_str_at l l' c "0" 0 ltac:(lia) H ltac:(simpl; lia)) end).
  all: walk.
  all: rewrite make_line_lookup by lia.
  all: do 10 (destruct k as [|k]; [first [reflexivity | lia] |]); lia.
Qed.


Lemma record_3_1_zero_fallback_witness :
  build_record_3_1 (cfg_full 1 0) =
    Ok "    1         0         0    7    0    0    0                         0" /\
  slot "    1         0         0    7    0    0    0                         0" 41 10
    = "    0     " /\
  col_at "    1         0         0    7    0    0    0                         0" 71 = "0"%char /\
  slot "    1         0         0    7    0    0    0                         0" 71 10
    = "0         ".
Proof.
  assert (Hfit : forall key w n, rec_3_1 !! key = Some (VInt n) ->
                 String.length (int_repr n) <= w -> int_fits rec_3_1 key w)
    by (intros key w n H1 H2; exists n; auto).
  destruct (record_3_1_zero_fallback (cfg_full 1 0) rec_3_1
              "    1         0         0    7    0    0    0                         0")
    as [A B].
  all: try first [ reflexivity
          | eapply (Hfit _ _ 1%Z); [reflexivity | simpl; lia]
          | eapply (Hfit _ _ 0%Z); [reflexivity | simpl; lia]
          | eapply (Hfit _ _ 7%Z); [reflexivity | simpl; lia]
          | vm_compute; reflexivity ].
  split; [vm_compute; reflexivity|]. split.
  - apply A. left. reflexivity.
  - assert (Hz : numeric_zero (dict_get rec_3_1 "CO2MX" (VInt 0)))
      by (right; right; exists false, 0%Z; reflexivity).
    destruct (B Hz) as [B1 B2]. split; [exact B1|]. apply B2.
    intros s Hs. vm_compute in Hs. injection Hs as <-. simpl. lia.
Defined.

Lemma round_half_even_0 (b : N) : b <> 0%N -> round_half_even 0 b = 0%N.
Proof.
  intros Hb. unfold round_half_even. rewrite N.Div0.div_0_l, N.Div0.mod_0_l.
  destruct b; [contradiction | reflexivity].
Qed.

Lemma float_f_body_zero (e : Z) : float_f_body (PFin false 0 e) 2 = "0.00".
Proof.
  unfold float_f_body, ratio. destruct (0 <=? e)%Z; [reflexivity|].
  cbn [N.mul]. rewrite round_half_even_0 by (apply N.pow_nonzero; discriminate).
  reflexivity.
Qed.

Lemma format_f_zero_5_2 (v : value) :
  (v = VInt 0 \/ exists e, v = VFloat (PFin false 0 e)) -> format_f v 5 2 = Ok " 0.00".
Proof.
  intros [-> | (e & ->)]; [reflexivity|]. unfold format_f. cbn [format_float_arg bind].
  rewrite float_f_body_zero. reflexivity.
Qed.

Lemma place_semiss_at (vals : list value) (line line' : list ascii) (j i : nat) (v : value) :
  place_semiss line j vals = Ok line' -> vals !! i = Some v ->
  exists s line1 line2, format_f v 5 2 = Ok s /\
    place_str line1 (16 + Z.of_nat (j + i) * 5) s = Ok line2 /\
    (forall p, p < 15 + 5 * (j + i + 1) -> line' !! p = line2 !! p).
Proof.
  revert line j i. induction vals as [|v0 vals IH]; intros line j i H Hi; [discriminate Hi|].
  simpl in H. inv_ok. destruct i as [|i]; simpl in Hi.
  - injection Hi as ->. exists a, line, a0. rewrite Nat.add_0_r. repeat split; auto.
    intros p Hp. eapply place_semiss_before; [eassumption | lia].
  - destruct (IH a0 (S j) i H Hi) as (s & l1 & l2 & Hs & Hp & Hr).
    exists s, l1, l2. replace (j + S i) with (S j + i) by lia. auto.
Qed.

(** C7: [fmt_float_e] renders a value that compares equal to 0 exactly
    as the fixed-point formatter does; and an emissivity [0.0] (or [0])
    at position [i] of SEMISS renders as [" 0.00"] and stands in
    columns [16+5i .. 20+5i] of the finished record 1.4. *)
Theorem zero_fixed_point :
  (forall (v : value) (w d : nat), numeric_zero v -> fmt_float_e v w d = fmt_float_f v w d) /\
  (forall (cfg : config) (r : record) (vals : list value) (i : nat) (v : value) (L : string),
     cfg !! "record_1_4" = Some r -> r !! "SEMISS" = Some (VList vals) ->
     vals !! i = Some v -> (v = VInt 0 \/ exists e, v = VFloat (PFin false 0 e)) ->
     build_record_1_4 cfg = Ok L ->
     format_f v 5 2 = Ok " 0.00" /\ slot L (16 + 5 * i) 5 = " 0.00").
Proof.
  split.
  - intros v w d Hz. unfold fmt_float_e. by rewrite numeric_zero_eq.
  - intros cfg r vals i v L Hr Hs Hi Hz HL. pose proof (format_f_zero_5_2 v Hz) as Hf.
    split; [exact Hf|]. unfold build_record_1_4 in HL. inv_ok.
    apply getitem_ok in Ha. rewrite Hr in Ha. injection Ha as <-.
    unfold dict_get in Ha5. rewrite Hs in Ha5. simpl in Ha5.
    destruct (place_semiss_at _ _ _ 0 i v Ha5 Hi) as (s & l1 & l2 & Hs' & Hp & Hrest).
    rewrite Hf in Hs'. injection Hs' as <-.
    apply (slot_of_buffer _ _ _ " 0.00"); [reflexivity | lia | | apply lit_safe; reflexivity].
    intros k Hk. simpl in Hk. rewrite Hrest by lia.
    replace (16 + 5 * i - 1 + k) with (Z.to_nat (16 + Z.of_nat (0 + i) * 5 - 1) + k) by lia.
    eapply place_str_at; [lia | exact Hp | exact Hk].
Qed.

Lemma zero_fixed_point_witness :
  fmt_float_e (fl false 0 0) 10 3 = fmt_float_f (fl false 0 0) 10 3 /\
  build_record_1_4 cfg_zero_emis = Ok "288.0      1  0 0.98 0.00" /\
  format_f (fl false 0 0) 5 2 = Ok " 0.00" /\
  slot "288.0      1  0 0.98 0.00" (16 + 5 * 1) 5 = " 0.00".
Proof.
  destruct zero_fixed_point as [A B]. split.
  - apply A. right. right. exists false, 0%Z. reflexivity.
  - split; [vm_compute; reflexivity|].
    apply (B cfg_zero_emis rec_1_4_zero [v098; fl false 0 0] 1 (fl false 0 0)).
    all: first [ right; exists 0%Z; reflexivity | vm_compute; reflexivity ].
Defined.

(** ** Which errors name a key *)

Lemma getitem_err {A} (d : gmap string A) (k k' : string) :
  getitem d k = Err (KeyError k') -> d !! k' = None.
Proof. unfold getitem. destruct (d !! k) eqn:E; [discriminate|]. by intros [= <-]. Qed.

Lemma int_to_float_nokey (z : Z) (k : string) : int_to_float z = Err (KeyError k) -> False.
Proof. unfold int_to_float. repeat case_match; discriminate. Qed.

Lemma format_float_arg_nokey (v : value) (k : string) :
  format_float_arg v = Err (KeyError k) -> False.
Proof. destruct v; simpl; try discriminate; apply int_to_float_nokey. Qed.

Lemma format_f_nokey (v : value) (w d : nat) (k : string) :
  format_f v w d = Err (KeyError k) -> False.
Proof.
  unfold format_f. destruct (format_float_arg v) eqn:E; simpl; [discriminate|].
  intros [= ->]. eapply format_float_arg_nokey; exact E.
Qed.

Lemma fmt_float_f_nokey (v : value) (w d : nat) (k : string) :
  fmt_float_f v w d = Err (KeyError k) -> False.
Proof. apply format_f_nokey. Qed.

Lemma fmt_int_nokey (v : value) (w : nat) (k : string) :
  fmt_int v w = Err (KeyError k) -> False.
Proof. destruct v; simpl; discriminate. Qed.

Lemma place_str_nokey (line : list ascii) (col : Z) (text : string) (k : string) :
  place_str line col text = Err (KeyError k) -> False.
Proof.
  unfold place_str. generalize (col - 1)%Z. revert line.
  induction (list_ascii_of_string text) as [|c cs IH]; intros line i; simpl; [discriminate|].
  unfold py_setitem. repeat case_match; simpl; try discriminate. all: apply IH.
Qed.

Lemma py_float_nokey fs (v : value) (k : string) : py_float fs v = Err (KeyError k) -> False.
Proof.
  destruct v; simpl; try discriminate; try apply int_to_float_nokey.
  case_match; discriminate.
Qed.

Lemma place_int_err (r : record) (line : list ascii) (col : Z) (key k : string) (w : nat) :
  place_int r line col key w = Err (KeyError k) -> r !! k = None.
Proof.
  unfold place_int. intros H. inv_err.
  - exfalso. eapply place_str_nokey; eassumption.
  - exfalso. eapply fmt_int_nokey; eassumption.
  - eapply getitem_err; eassumption.
Qed.

Lemma place_semiss_nokey (vals : list value) (line : list ascii) (i : nat) (k : string) :
  place_semiss line i vals = Err (KeyError k) -> False.
Proof.
  revert line i. induction vals as [|v vals IH]; intros line i H; simpl in H; [discriminate|].
  inv_err; first [ eapply IH; eassumption | eapply place_str_nokey; eassumption
                 | eapply format_f_nokey; eassumption ].
Qed.

Lemma semiss_loop_nokey (line : list ascii) (v : value) (k : string) :
  semiss_loop line v = Err (KeyError k) -> False.
Proof.
  destruct v as [| | | s | vals |]; simpl; try discriminate.
  - destruct s; discriminate.
  - apply place_semiss_nokey.
Qed.

Lemma place_layer_nokey fs (r : record) (keys : list string) (line : list ascii) (i : nat)
    (k : string) :
  place_layer fs r line i keys = Err (KeyError k) -> False.
Proof.
  revert line i. induction keys as [|key keys IH]; intros line i H; simpl in H; [discriminate|].
  inv_err;
    first [ eapply IH; eassumption | eapply place_str_nokey; eassumption
          | eapply fmt_float_f_nokey; eassumption | eapply py_float_nokey; eassumption ].
Qed.

Lemma py_join_nokey (sep : string) (items : list value) (k : string) :
  py_join sep items = Err (KeyError k) -> False.
Proof.
  induction items as [|v items IH]; simpl; [discriminate|].
  destruct v; try discriminate. destruct items; [discriminate|].
  intros H. inv_err. auto.
Qed.

Lemma getitem_err_key {A} (d : gmap string A) (k k' : string) :
  getitem d k = Err (KeyError k') -> k' = k /\ d !! k = None.
Proof. unfold getitem. destruct (d !! k) eqn:E; [discriminate|]. by intros [= <-]. Qed.

Lemma place_int_err_key (r : record) (line : list ascii) (col : Z) (key k : string) (w : nat) :
  place_int r line col key w = Err (KeyError k) -> k = key /\ r !! key = None.
Proof.
  unfold place_int. intros H. inv_err.
  - exfalso. eapply place_str_nokey; eassumption.
  - exfalso. eapply fmt_int_nokey; eassumption.
  - eapply getitem_err_key; eassumption.
Qed.

(** Closing a goal [missing_in cfg rk fields k] from the failing step. *)
Ltac miss_leaf :=
  match goal with
  | Ha : getitem ?cfg ?rk = Err (KeyError ?k) |- missing_in ?cfg ?rk _ ?k =>
      left; destruct (getitem_err_key _ _ _ Ha) as [-> Hn]; split; [exact Hn | reflexivity]
  | Ha : getitem ?r "CO2MX" = Err _, E : negb (py_eq_num (dict_get ?r "CO2MX" _) 0) = true |- _ =>
      exfalso; destruct (getitem_err_key _ _ _ Ha) as [_ Hn];
      unfold dict_get in E; rewrite Hn in E; discriminate E
  | Ha : getitem ?r _ = Err (KeyError ?k), Hr : getitem ?cfg ?rk = Ok ?r
    |- missing_in ?cfg ?rk _ ?k =>
      right; destruct (getitem_err_key _ _ _ Ha) as [-> Hn]; exists r;
      split; [apply getitem_ok; exact Hr | split; [simpl; tauto | exact Hn]]
  | Ha : place_int ?r _ _ _ _ = Err (KeyError ?k), Hr : getitem ?cfg ?rk = Ok ?r
    |- missing_in ?cfg ?rk _ ?k =>
      right; destruct (place_int_err_key _ _ _ _ _ _ Ha) as [-> Hn]; exists r;
      split; [apply getitem_ok; exact Hr | split; [simpl; tauto | exact Hn]]
  | Ha : _ = Err (KeyError _) |- _ =>
      exfalso;
      first [ eapply place_str_nokey; exact Ha | eapply fmt_float_f_nokey; exact Ha
            | eapply format_f_nokey; exact Ha | eapply semiss_loop_nokey; exact Ha
            | eapply place_layer_nokey; exact Ha | eapply py_join_nokey; exact Ha
            | eapply py_float_nokey; exact Ha ]
  end.

Lemma build_record_1_1_missing (cfg : config) (k : string) :
  build_record_1_1 cfg = Err (KeyError k) ->
  missing_in cfg "record_1_1" ["header"; "control_line"] k.
Proof. unfold build_record_1_1. intros H. inv_err; miss_leaf. Qed.

Lemma build_record_1_2_missing (cfg : config) (k : string) :
  build_record_1_2 cfg = Err (KeyError k) ->
  missing_in cfg "record_1_2" ["IAER"; "IATM"; "IXSECT"; "NUMANGS"; "IOUT"; "IDRV"; "IMCA"; "ICLD"] k.
Proof. unfold build_record_1_2. intros H. inv_err; miss_leaf. Qed.

Lemma build_record_1_4_missing (cfg : config) (k : string) :
  build_record_1_4 cfg = Err (KeyError k) ->
  missing_in cfg "record_1_4" ["TBOUND"; "IEMIS"; "IREFLECT"] k.
Proof. unfold build_record_1_4. intros H. inv_err; miss_leaf. Qed.

Lemma build_record_3_1_missing (cfg : config) (k : string) :
  build_record_3_1 cfg = Err (KeyError k) ->
  missing_in cfg "record_3_1" ["MODEL"; "IBMAX"; "NOPRNT"; "NMOL"; "IPUNCH"; "MUNITS"] k.
Proof. unfold build_record_3_1. intros H. inv_err; miss_leaf. Qed.

Lemma build_record_3_2_missing (cfg : config) (k : string) :
  build_record_3_2 cfg = Err (KeyError k) -> missing_in cfg "record_3_2" ["HBOUND"; "HTOA"] k.
Proof. unfold build_record_3_2. intros H. inv_err; miss_leaf. Qed.

Lemma build_record_3_3a_missing fs (cfg : config) (k : string) :
  build_record_3_3a fs cfg = Err (KeyError k) -> missing_in cfg "record_3_3a" [] k.
Proof. unfold build_record_3_3a. intros H. inv_err; miss_leaf. Qed.

Lemma place_int_some (r : record) (line line' : list ascii) (col : Z) (key : string) (w : nat) :
  place_int r line col key w = Ok line' -> is_Some (r !! key).
Proof. unfold place_int. intros H. inv_ok. eexists. eapply getitem_ok; eassumption. Qed.

Ltac fields_tac :=
  match goal with
  | Ha : getitem ?cfg ?rk = Ok ?r |- has_fields ?cfg ?rk _ =>
      exists r; split; [apply getitem_ok; exact Ha|];
      repeat constructor;
      first [eapply place_int_some; eassumption | eexists; eapply getitem_ok; eassumption]
  end.

Lemma dict_get_getitem {A} (d : gmap string A) (k : string) (v dflt : A) :
  getitem d k = Ok v -> dict_get d k dflt = v.
Proof. intros H. apply getitem_ok in H. unfold dict_get. by rewrite H. Qed.

Lemma build_record_1_1_fields (cfg : config) (x : list value) :
  build_record_1_1 cfg = Ok x -> has_fields cfg "record_1_1" ["header"; "control_line"].
Proof. unfold build_record_1_1. intros H. inv_ok. fields_tac. Qed.

Lemma build_record_1_2_fields (cfg : config) (x : string) :
  build_record_1_2 cfg = Ok x ->
  has_fields cfg "record_1_2" ["IAER"; "IATM"; "IXSECT"; "NUMANGS"; "IOUT"; "IDRV"; "IMCA"; "ICLD"].
Proof. unfold build_record_1_2. intros H. inv_ok. fields_tac. Qed.

Lemma build_record_1_4_fields (cfg : config) (x : string) :
  build_record_1_4 cfg = Ok x -> has_fields cfg "record_1_4" ["TBOUND"; "IEMIS"; "IREFLECT"].
Proof. unfold build_record_1_4. intros H. inv_ok. fields_tac. Qed.

Lemma build_record_3_1_fields (cfg : config) (x : string) :
  build_record_3_1 cfg = Ok x ->
  has_fields cfg "record_3_1" ["MODEL"; "IBMAX"; "NOPRNT"; "NMOL"; "IPUNCH"; "MUNITS"].
Proof. unfold build_record_3_1. intros H. inv_ok; fields_tac. Qed.

Lemma build_record_3_2_fields (cfg : config) (x : string) :
  build_record_3_2 cfg = Ok x -> has_fields cfg "record_3_2" ["HBOUND"; "HTOA"].
Proof. unfold build_record_3_2. intros H. inv_ok. fields_tac. Qed.

Lemma build_record_3_3a_fields fs (cfg : config) (x : string) :
  build_record_3_3a fs cfg = Ok x -> has_fields cfg "record_3_3a" [].
Proof. unfold build_record_3_3a. intros H. inv_ok. fields_tac. Qed.

(** C2 (counterexample): a configuration with no SEMISS in record 1.4
    and no RE and no CO2MX in record 3.1 is not rejected: the document
    is generated, with no emissivities in the surface line and the
    zero fallbacks in the profile line. *)
Lemma missing_optional_keys_counterexample :
  key_missing cfg_sparse "SEMISS" /\ key_missing cfg_sparse "RE" /\
  key_missing cfg_sparse "CO2MX" /\
  exists doc, generate_input_rrtm float_of_str_none cfg_sparse = Ok doc /\
    text_lines doc !! 3 = Some "288.0      1  0" /\
    text_lines doc !! 4 =
      Some "    1         0         0    7    0    0    0                         0".
Proof.
  split; [right; exists "record_1_4", (delete "SEMISS" rec_1_4); split; vm_compute; reflexivity|].
  split; [right; exists "record_3_1", (delete "RE" (delete "CO2MX" rec_3_1));
          split; vm_compute; reflexivity|].
  split; [right; exists "record_3_1", (delete "RE" (delete "CO2MX" rec_3_1));
          split; vm_compute; reflexivity|].
  eexists. split; [vm_compute; reflexivity|]. split; vm_compute; reflexivity.
Qed.

Lemma active_profile (cfg : config) (r12 : record) (v : value) :
  cfg !! "record_1_2" = Some r12 -> r12 !! "IATM" = Some v -> py_eq_num v 1 = true ->
  In ("record_3_1", ["MODEL"; "IBMAX"; "NOPRNT"; "NMOL"; "IPUNCH"; "MUNITS"]) (active_records cfg) /\
  In ("record_3_2", ["HBOUND"; "HTOA"]) (active_records cfg).
Proof. intros H1 H2 H3. unfold active_records. rewrite H1, H2, H3. simpl. tauto. Qed.

Lemma active_layers (cfg : config) (r12 r31 : record) (v : value) :
  cfg !! "record_1_2" = Some r12 -> r12 !! "IATM" = Some v -> py_eq_num v 1 = true ->
  cfg !! "record_3_1" = Some r31 -> py_eq_num (dict_get r31 "IBMAX" (VInt 0)) 0 = true ->
  In ("record_3_3a", []) (active_records cfg).
Proof.
  intros H1 H2 H3 H4 H5. unfold active_records. rewrite H1, H2, H3, H4, H5. simpl. tauto.
Qed.

Lemma generate_keyerror_missing fs (cfg : config) (k : string) :
  generate_input_rrtm fs cfg = Err (KeyError k) -> required_missing cfg k.
Proof.
  intros H. unfold generate_input_rrtm, generate_lines in H. inv_err.
  all: try (exfalso; eapply py_join_nokey; eassumption).
  all: try match goal with
       | Hg : getitem ?cfg "record_1_2" = Ok ?r12, Hi : getitem ?r12 "IATM" = Ok ?v,
         E : py_eq_num ?v 1 = true |- _ =>
           destruct (active_profile _ r12 v (getitem_ok _ _ _ Hg) (getitem_ok _ _ _ Hi) E)
             as [A31 A32]
       end.
  all: first
    [ exists "record_1_1", ["header"; "control_line"]; split; [simpl; tauto|];
      eapply build_record_1_1_missing; eassumption
    | exists "record_1_2", ["IAER"; "IATM"; "IXSECT"; "NUMANGS"; "IOUT"; "IDRV"; "IMCA"; "ICLD"];
      split; [simpl; tauto|];
      first [eapply build_record_1_2_missing; eassumption | miss_leaf]
    | exists "record_1_4", ["TBOUND"; "IEMIS"; "IREFLECT"]; split; [simpl; tauto|];
      eapply build_record_1_4_missing; eassumption
    | exists "record_3_1", ["MODEL"; "IBMAX"; "NOPRNT"; "NMOL"; "IPUNCH"; "MUNITS"];
      split; [exact A31|];
      first [eapply build_record_3_1_missing; eassumption | miss_leaf]
    | exists "record_3_2", ["HBOUND"; "HTOA"]; split; [exact A32|];
      eapply build_record_3_2_missing; eassumption
    | exists "record_3_3a", []; split;
      [ match goal with
        | Hg : getitem _ "record_1_2" = Ok ?r12, Hi : getitem ?r12 "IATM" = Ok ?v,
          E : py_eq_num ?v 1 = true, H3 : getitem _ "record_3_1" = Ok ?r31,
          E0 : py_eq_num (dict_get ?r31 _ _) 0 = true |- _ =>
            exact (active_layers _ _ _ _ (getitem_ok _ _ _ Hg) (getitem_ok _ _ _ Hi) E
                     (getitem_ok _ _ _ H3) E0)
        end
      | eapply build_record_3_3a_missing; eassumption ] ].
Qed.

Lemma generate_active_fields fs (cfg : config) (doc : string) :
  generate_input_rrtm fs cfg = Ok doc ->
  forall rk fields, In (rk, fields) (active_records cfg) -> has_fields cfg rk fields.
Proof.
  intros H rk fields Hin. unfold generate_input_rrtm, generate_lines in H. inv_ok.
  all: unfold active_records in Hin.
  all: match goal with
       | Hg : getitem _ "record_1_2" = Ok ?r12, Hi : getitem ?r12 "IATM" = Ok ?v |- _ =>
           rewrite (getitem_ok _ _ _ Hg), (getitem_ok _ _ _ Hi) in Hin
       end.
  all: match goal with E : py_eq_num _ 1 = _ |- _ => rewrite E in Hin end.
  all: try match goal with
       | H3 : getitem _ "record_3_1" = Ok ?r31, E0 : py_eq_num (dict_get ?r31 _ _) 0 = _ |- _ =>
           rewrite (getitem_ok _ _ _ H3), E0 in Hin
       end.
  all: simpl in Hin; repeat destruct Hin as [Hin|Hin]; try contradiction;
       injection Hin as <- <-.
  all: first [ eapply build_record_1_1_fields; eassumption
             | eapply build_record_1_2_fields; eassumption
             | eapply build_record_1_4_fields; eassumption
             | eapply build_record_3_1_fields; eassumption
             | eapply build_record_3_2_fields; eassumption
             | eapply build_record_3_3a_fields; eassumption ].
Qed.

Lemma has_fields_not_missing (cfg : config) (rk : string) (fields : list string) (k : string) :
  has_fields cfg rk fields -> missing_in cfg rk fields k -> False.
Proof.
  intros (r & Hr & Hf) [[Hn _]|(r' & Hr' & Hin & Hk)]; [congruence|].
  rewrite Hr in Hr'. injection Hr' as <-.
  pose proof (proj1 (List.Forall_forall _ _) Hf k Hin) as Hs. cbv beta in Hs. rewrite Hk in Hs.
  by destruct Hs.
Qed.


Lemma getitem_delete_ne {A} (d : gmap string A) (k k' : string) :
  k' <> k -> getitem (delete k d) k' = getitem d k'.
Proof. intros H. unfold getitem. by rewrite lookup_delete_ne by congruence. Qed.

Lemma getitem_insert_ne {A} (d : gmap string A) (k k' : string) (v : A) :
  k' <> k -> getitem (<[k := v]> d) k' = getitem d k'.
Proof. intros H. unfold getitem. by rewrite lookup_insert_ne by congruence. Qed.

Lemma dict_get_delete_insert {A} (d : gmap string A) (k k' : string) (dflt : A) :
  dict_get (delete k d) k' dflt = dict_get (<[k := dflt]> d) k' dflt.
Proof.
  unfold dict_get. destruct (String.eqb_spec k k') as [<-|Hne].
  - by rewrite lookup_delete_eq, lookup_insert_eq.
  - by rewrite lookup_delete_ne, lookup_insert_ne by congruence.
Qed.

Lemma getitem_insert_eq {A} (d : gmap string A) (k : string) (v : A) :
  getitem (<[k := v]> d) k = Ok v.
Proof. unfold getitem. by rewrite lookup_insert_eq. Qed.

Lemma dict_get_insert_eq {A} (d : gmap string A) (k : string) (v dflt : A) :
  dict_get (<[k := v]> d) k dflt = v.
Proof. unfold dict_get. by rewrite lookup_insert_eq. Qed.

Lemma build_record_1_4_semiss_default (cfg : config) (r : record) :
  build_record_1_4 (<["record_1_4" := delete "SEMISS" r]> cfg) =
  build_record_1_4 (<["record_1_4" := <["SEMISS" := VList []]> r]> cfg).
Proof.
  unfold build_record_1_4, place_int. rewrite !getitem_insert_eq. cbn [bind].
  rewrite !getitem_delete_ne, !getitem_insert_ne by congruence.
  by rewrite dict_get_delete_insert.
Qed.

Lemma build_record_3_1_re_default (cfg : config) (r : record) :
  build_record_3_1 (<["record_3_1" := delete "RE" r]> cfg) =
  build_record_3_1 (<["record_3_1" := <["RE" := VInt 0]> r]> cfg).
Proof.
  unfold build_record_3_1, place_int. rewrite !getitem_insert_eq. cbn [bind].
  rewrite !getitem_delete_ne, !getitem_insert_ne by congruence.
  by rewrite !dict_get_delete_insert.
Qed.

Lemma build_record_3_1_co2mx_default (cfg : config) (r : record) :
  build_record_3_1 (<["record_3_1" := delete "CO2MX" r]> cfg) =
  build_record_3_1 (<["record_3_1" := <["CO2MX" := VInt 0]> r]> cfg).
Proof.
  unfold build_record_3_1, place_int. rewrite !getitem_insert_eq. cbn [bind].
  rewrite !getitem_delete_ne, !getitem_insert_ne by congruence.
  rewrite !dict_get_delete_insert.
  rewrite dict_get_insert_eq. reflexivity.
Qed.

Lemma bind_ext {A B} (m : result A) (k k' : A -> result B) :
  (forall a, k a = k' a) -> bind m k = bind m k'.
Proof. intros H. destruct m; simpl; [apply H | reflexivity]. Qed.

Lemma place_layer_congr fs (r r' : record) (line : list ascii) (i : nat) (keys : list string) :
  (forall k, dict_get r' k (VInt 0) = dict_get r k (VInt 0)) ->
  place_layer fs r' line i keys = place_layer fs r line i keys.
Proof.
  intros H. revert line i.
  induction keys as [|key keys IH]; intros line i; cbn [place_layer]; [reflexivity|].
  rewrite H. apply bind_ext; intros f. apply bind_ext; intros s.
  apply bind_ext; intros l. apply IH.
Qed.

Lemma build_record_3_3a_default fs (cfg : config) (r : record) (key : string) :
  build_record_3_3a fs (<["record_3_3a" := delete key r]> cfg) =
  build_record_3_3a fs (<["record_3_3a" := <[key := VInt 0]> r]> cfg).
Proof.
  unfold build_record_3_3a. rewrite !getitem_insert_eq. cbn [bind].
  rewrite (place_layer_congr fs (<[key := VInt 0]> r) (delete key r));
    [reflexivity | intros k; apply dict_get_delete_insert].
Qed.

Lemma getitem_none {A} (d : gmap string A) (k : string) :
  d !! k = None -> getitem d k = Err (KeyError k).
Proof. unfold getitem. by intros ->. Qed.

Lemma generate_congr fs (cfg cfg' : config) :
  build_record_1_1 cfg' = build_record_1_1 cfg -> build_record_1_2 cfg' = build_record_1_2 cfg ->
  build_record_1_4 cfg' = build_record_1_4 cfg -> build_record_3_1 cfg' = build_record_3_1 cfg ->
  build_record_3_2 cfg' = build_record_3_2 cfg ->
  build_record_3_3a fs cfg' = build_record_3_3a fs cfg ->
  cfg' !! "record_1_2" = cfg !! "record_1_2" ->
  option_map (fun r => r !! "IBMAX") (cfg' !! "record_3_1") =
    option_map (fun r => r !! "IBMAX") (cfg !! "record_3_1") ->
  generate_input_rrtm fs cfg' = generate_input_rrtm fs cfg.
Proof.
  intros E1 E2 E4 E31 E32 E33 H12 H31. unfold generate_input_rrtm, generate_lines.
  rewrite E1, E2, E4, E31, E32, E33, (getitem_same _ _ _ H12).
  destruct (cfg !! "record_3_1") as [r|] eqn:A; destruct (cfg' !! "record_3_1") as [r'|] eqn:B;
    simpl in H31; try discriminate.
  - injection H31 as H31. rewrite (getitem_some _ _ _ A), (getitem_some _ _ _ B). cbn [bind].
    unfold dict_get. by rewrite H31.
  - by rewrite (getitem_none _ _ A), (getitem_none _ _ B).
Qed.

Ltac congr_tac :=
  apply generate_congr;
  [ .. | by rewrite !lookup_insert_ne
       | first [ by rewrite !lookup_insert_ne
               | rewrite !lookup_insert_eq; simpl;
                 by rewrite lookup_delete_ne, lookup_insert_ne ] ];
  first [ apply build_record_1_4_semiss_default | apply build_record_3_1_re_default
        | apply build_record_3_1_co2mx_default | apply build_record_3_3a_default
        | apply build_record_1_1_ext | apply build_record_1_2_ext | apply build_record_1_4_ext
        | apply build_record_3_1_ext | apply build_record_3_2_ext | apply build_record_3_3a_ext ];
  by rewrite !lookup_insert_ne.

(** C2 (amended): a record or required field missing from the active
    path always makes generation fail, and every KeyError it raises names
    a record or required field of the active path that is really
    missing.  Fields read with a default are not required: a record 1.4
    without SEMISS generates exactly as with SEMISS = [], a record 3.1
    without RE or without CO2MX as with that field = 0, and a record
    3.3A without any given key as with that key = 0. *)
Theorem missing_keys_fail_fast fs (cfg : config) :
  (forall k, generate_input_rrtm fs cfg = Err (KeyError k) -> required_missing cfg k) /\
  (forall k, required_missing cfg k -> forall doc, generate_input_rrtm fs cfg <> Ok doc) /\
  (forall r, generate_input_rrtm fs (<["record_1_4" := delete "SEMISS" r]> cfg) =
             generate_input_rrtm fs (<["record_1_4" := <["SEMISS" := VList []]> r]> cfg)) /\
  (forall r, generate_input_rrtm fs (<["record_3_1" := delete "RE" r]> cfg) =
             generate_input_rrtm fs (<["record_3_1" := <["RE" := VInt 0]> r]> cfg)) /\
  (forall r, generate_input_rrtm fs (<["record_3_1" := delete "CO2MX" r]> cfg) =
             generate_input_rrtm fs (<["record_3_1" := <["CO2MX" := VInt 0]> r]> cfg)) /\
  (forall r key, generate_input_rrtm fs (<["record_3_3a" := delete key r]> cfg) =
                 generate_input_rrtm fs (<["record_3_3a" := <[key := VInt 0]> r]> cfg)).
Proof.
  split; [apply generate_keyerror_missing|].
  split.
  { intros k (rk & fields & Hin & Hm) doc Hdoc.
    exact (has_fields_not_missing _ _ _ _ (generate_active_fields _ _ _ Hdoc _ _ Hin) Hm). }
  repeat split; intros; congr_tac.
Qed.

Lemma missing_keys_fail_fast_witness :
  generate_input_rrtm float_of_str_none (delete "record_3_2" (cfg_full 1 0)) =
    Err (KeyError "record_3_2") /\
  required_missing (delete "record_3_2" (cfg_full 1 0)) "record_3_2" /\
  required_missing cfg_masked "ICLD" /\
  generate_input_rrtm float_of_str_none cfg_masked = Err ValueError /\
  (forall doc, generate_input_rrtm float_of_str_none cfg_masked <> Ok doc) /\
  generate_input_rrtm float_of_str_none (<["record_1_4" := delete "SEMISS" rec_1_4]> (cfg_full 1 0)) =
    generate_input_rrtm float_of_str_none
      (<["record_1_4" := <["SEMISS" := VList []]> rec_1_4]> (cfg_full 1 0)).
Proof.
  assert (M : required_missing cfg_masked "ICLD").
  { exists "record_1_2", ["IAER"; "IATM"; "IXSECT"; "NUMANGS"; "IOUT"; "IDRV"; "IMCA"; "ICLD"].
    split; [vm_compute; tauto|].
    right. eexists. split; [reflexivity|]. split; [simpl; tauto | vm_compute; reflexivity]. }
  split; [vm_compute; reflexivity|]. split.
  { destruct (missing_keys_fail_fast float_of_str_none (delete "record_3_2" (cfg_full 1 0)))
      as [A _].
    apply A. vm_compute. reflexivity. }
  split; [exact M|]. split; [vm_compute; reflexivity|].
  destruct (missing_keys_fail_fast float_of_str_none cfg_masked) as (_ & B & _).
  split; [exact (B "ICLD" M)|].
  destruct (missing_keys_fail_fast float_of_str_none (cfg_full 1 0)) as (_ & _ & C & _).
  apply C.
Defined.

(* ------------------------------------------------------------------ *)
(** ** The comment filter of [load_config] *)

Lemma strip_comments_obj (kvs : list (string * json)) :
  strip_comments (JObj kvs) =
  JObj (map (fun kv => (fst kv, strip_comments (snd kv)))
            (List.filter (fun kv => keep_key (fst kv)) kvs)).
Proof.
  simpl. f_equal. induction kvs as [|[k v] kvs IH]; simpl; [reflexivity|].
  destruct (keep_key k); simpl; by rewrite IH.
Qed.

Lemma comment_free_strip (j : json) : comment_free (strip_comments j) = true.
Proof.
  induction j as [| | | | | l _ | kvs IH] using json_ind'; try reflexivity.
  rewrite strip_comments_obj. simpl. apply forallb_forall.
  intros [k v] Hin. apply in_map_iff in Hin as ([k' v'] & [= <- <-] & Hin).
  apply filter_In in Hin as [Hin Hk]. simpl in *. rewrite Hk. simpl.
  exact (proj1 (List.Forall_forall _ _) IH (k', v') Hin).
Qed.

Lemma strip_comments_clean (j : json) : comment_free j = true -> strip_comments j = j.
Proof.
  induction j as [| | | | | l _ | kvs IH] using json_ind'; intros Hc; try reflexivity.
  rewrite strip_comments_obj. f_equal. simpl in Hc.
  induction kvs as [|[k v] kvs IHk]; [reflexivity|].
  simpl in Hc. apply andb_true_iff in Hc as [Hkv Hc]. apply andb_true_iff in Hkv as [Hk Hv].
  inversion IH as [|? ? Hv' IH']; subst. simpl. rewrite Hk. simpl.
  simpl in Hv'; rewrite (Hv' Hv). f_equal. by apply IHk.
Qed.

(** [load_config] leaves no comment key behind: no dict reachable from
    the loaded document through dict values has a key that starts with
    ["_"] or ends with ["_options"] or ["_note"]. *)
Theorem load_config_comment_free (raw : json) : comment_free (load_config raw) = true.
Proof. unfold load_config. apply comment_free_strip. Qed.

(** A document without comment keys (in the dicts reachable through
    dicts) is loaded unchanged. *)
Theorem load_config_clean_unchanged (raw : json) :
  comment_free raw = true -> load_config raw = raw.
Proof. unfold load_config. apply strip_comments_clean. Qed.

Lemma load_config_clean_unchanged_witness :
  comment_free (load_config raw_doc) = true /\
  load_config (load_config raw_doc) = load_config raw_doc.
Proof.
  split; [vm_compute; reflexivity|].
  apply (load_config_clean_unchanged (load_config raw_doc)). vm_compute. reflexivity.
Defined.

(** Stripping comments is idempotent: loading an already loaded
    document changes nothing. *)
Theorem strip_comments_idempotent (j : json) :
  strip_comments (strip_comments j) = strip_comments j.
Proof. apply strip_comments_clean, comment_free_strip. Qed.

(** A stripped dict keeps the non-comment keys of the original, in their
    order, and [d.get(k)] on it is the stripped value of the original
    [d.get(k)] for a non-comment key and [None] for a comment key. *)
Theorem strip_comments_keys_values (kvs : list (string * json)) (k : string) :
  obj_keys (strip_comments (JObj kvs)) = List.filter keep_key (map fst kvs) /\
  obj_get k (strip_comments (JObj kvs)) =
    if keep_key k then option_map strip_comments (obj_lookup k kvs) else None.
Proof.
  rewrite strip_comments_obj. simpl. split.
  - induction kvs as [|[k' v] kvs IH]; simpl; [reflexivity|].
    destruct (keep_key k'); simpl; by rewrite IH.
  - induction kvs as [|[k' v] kvs IH]; simpl; [by destruct (keep_key k)|].
    destruct (String.eqb_spec k k') as [<-|Hne].
    + destruct (keep_key k) eqn:Hk; simpl; [|exact IH].
      by destruct (String.eqb_spec k k).
    + destruct (keep_key k'); simpl; [|exact IH].
      by destruct (String.eqb_spec k k').
Qed.

(* ------------------------------------------------------------------ *)
(** ** [line_to_str] and [place_str] at the edges *)

Lemma drop_spaces_head (l : list ascii) :
  match drop_spaces l with [] => True | c :: _ => is_space c = false end.
Proof.
  induction l as [|c l IH]; simpl; [exact I|].
  destruct (is_space c) eqn:Hc; [exact IH | exact Hc].
Qed.

(** [line_to_str] only drops trailing whitespace: the buffer is the
    returned text followed by whitespace characters, and the returned
    text does not end in whitespace. *)
Theorem line_to_str_trailing (line : list ascii) :
  (exists t, line = app (list_ascii_of_string (line_to_str line)) t /\
     Forall (fun c => is_space c = true) t) /\
  (forall p c, list_ascii_of_string (line_to_str line) = app p [c] -> is_space c = false).
Proof.
  unfold line_to_str. rewrite list_ascii_of_string_of_list_ascii. split.
  - apply rstrip_split.
  - intros p c H. unfold rstrip in H.
    apply (f_equal (@rev ascii)) in H. rewrite rev_involutive, rev_app_distr in H.
    simpl in H. pose proof (drop_spaces_head (rev line)) as Hh. by rewrite H in Hh.
Qed.

Lemma place_chars_out (cs line : list ascii) (idx : Z) :
  (0 <= idx)%Z -> cs <> [] -> (Z.of_nat (length line) < idx + Z.of_nat (length cs))%Z ->
  place_chars line idx cs = Err IndexError.
Proof.
  revert line idx. induction cs as [|c cs IH]; intros line idx H0 Hne Hgt; [congruence|].
  simpl in *. unfold py_setitem.
  destruct (Z.ltb_spec idx (Z.of_nat (length line))) as [Hlt|Hge].
  - replace ((0 <=? idx)%Z) with true by lia. simpl. apply IH.
    + lia.
    + destruct cs; [simpl in Hgt; lia | discriminate].
    + rewrite length_insert. lia.
  - rewrite andb_false_r. replace (idx <? 0)%Z with false by lia.
    by rewrite andb_false_r.
Qed.

(** A non-empty text that would run past the end of the buffer raises
    IndexError: [place_str] never extends the line. *)
Theorem place_str_out_of_range (line : list ascii) (col : Z) (text : string) :
  (1 <= col)%Z -> text <> "" ->
  (Z.of_nat (length line) < col - 1 + Z.of_nat (String.length text))%Z ->
  place_str line col text = Err IndexError.
Proof.
  intros H1 Hne Hgt. unfold place_str. apply place_chars_out.
  - lia.
  - destruct text; [congruence | discriminate].
  - by rewrite <- length_list_ascii.
Qed.

Lemma place_str_out_of_range_witness :
  place_str (make_line 5) 4 "abc" = Err IndexError.
Proof.
  apply place_str_out_of_range; [lia | discriminate | vm_compute; reflexivity].
Defined.

Lemma place_chars_wrap (cs line : list ascii) (idx : Z) :
  (- Z.of_nat (length line) <= idx)%Z -> (idx + Z.of_nat (length cs) <= 0)%Z ->
  place_chars line idx cs = place_chars line (Z.of_nat (length line) + idx) cs.
Proof.
  revert line idx. induction cs as [|c cs IH]; intros line idx Hlo Hhi; [reflexivity|].
  simpl in *. unfold py_setitem.
  replace ((0 <=? idx)%Z && (idx <? Z.of_nat (length line))%Z) with false
    by (symmetry; apply andb_false_iff; left; apply Z.leb_gt; lia).
  replace ((- Z.of_nat (length line) <=? idx)%Z && (idx <? 0)%Z) with true
    by (symmetry; apply andb_true_iff; split; [apply Z.leb_le | apply Z.ltb_lt]; lia).
  replace ((0 <=? Z.of_nat (length line) + idx)%Z &&
           (Z.of_nat (length line) + idx <? Z.of_nat (length line))%Z) with true
    by (symmetry; apply andb_true_iff; split; [apply Z.leb_le | apply Z.ltb_lt]; lia).
  simpl. rewrite IH by (rewrite ?length_insert; lia).
  rewrite length_insert. f_equal. lia.
Qed.

(** A column [<= 0] is not rejected: as Python indexes from the end of
    a list with negative indices, a text whose indices [col-1 ..] all
    fall in [-len(line) .. -1] is written from position
    [len(line) + col - 1] (0-based) on; column 0 puts a one-character
    text in the last position. *)
Theorem place_str_nonpositive_col (line : list ascii) (col : Z) (text : string) :
  (- Z.of_nat (length line) <= col - 1)%Z ->
  (col - 1 + Z.of_nat (String.length text) <= 0)%Z ->
  exists line', place_str line col text = Ok line' /\
    length line' = length line /\
    (forall k, k < String.length text ->
       line' !! (Z.to_nat (Z.of_nat (length line) + col - 1) + k) = String.get k text) /\
    (forall i, i < Z.to_nat (Z.of_nat (length line) + col - 1) \/
               Z.to_nat (Z.of_nat (length line) + col - 1) + String.length text <= i ->
       line' !! i = line !! i).
Proof.
  intros Hlo Hhi. unfold place_str. pose proof (length_list_ascii text) as Hlen.
  rewrite place_chars_wrap by lia.
  destruct (place_chars_spec (list_ascii_of_string text) line
              (Z.to_nat (Z.of_nat (length line) + col - 1)))
    as (line' & Hpl & Hl & Hin & Hout); [lia|].
  replace (Z.of_nat (length line) + (col - 1))%Z
    with (Z.of_nat (Z.to_nat (Z.of_nat (length line) + col - 1))) by lia.
  rewrite Hpl. exists line'. repeat split; auto.
  - intros k Hk. rewrite get_list_ascii. apply Hin. lia.
  - intros i Hi. apply Hout. lia.
Qed.

Lemma place_str_nonpositive_col_witness :
  place_str (make_line 5) 0 "x" = Ok (app (make_line 4) ["x"%char]) /\
  exists line', place_str (make_line 5) 0 "x" = Ok line' /\
    length line' = length (make_line 5) /\
    (forall k, k < String.length "x" ->
       line' !! (Z.to_nat (Z.of_nat (length (make_line 5)) + 0 - 1) + k) = String.get k "x") /\
    (forall i, i < Z.to_nat (Z.of_nat (length (make_line 5)) + 0 - 1) \/
               Z.to_nat (Z.of_nat (length (make_line 5)) + 0 - 1) + String.length "x" <= i ->
       line' !! i = make_line 5 !! i).
Proof.
  split; [vm_compute; reflexivity|].
  apply place_str_nonpositive_col; vm_compute; discriminate.
Defined.

(* ------------------------------------------------------------------ *)
(** ** Column layout of the records *)

Lemma place_int_at (r : record) (line line' : list ascii) (col : Z) (key : string)
    (w : nat) (v : value) (s : string) (k : nat) :
  (1 <= col)%Z -> place_int r line col key w = Ok line' -> r !! key = Some v ->
  fmt_int v w = Ok s -> k < String.length s ->
  line' !! (Z.to_nat (col - 1) + k) = String.get k s.
Proof.
  intros H1 H Hv Hs Hk. unfold place_int in H. inv_ok.
  apply getitem_ok in Ha. rewrite Hv in Ha. injection Ha as <-.
  rewrite Hs in Ha0. injection Ha0 as <-. eapply place_str_at; eauto.
Qed.

Lemma fits_length (r : record) (key : string) (w : nat) (v : value) (s : string) :
  int_fits r key w -> r !! key = Some v -> fmt_int v w = Ok s -> w = String.length s.
Proof. intros Hf Hv Hs. symmetry. eapply int_fits_fmt; eauto. Qed.

(** Matching the lookups and formatter results of an unfolded builder
    with the ones of the statement. *)
Ltac settle :=
  repeat match goal with
  | H : getitem _ _ = Ok _ |- _ => apply getitem_ok in H
  | H : ?m = Some ?a, H' : ?m = Some ?b |- _ =>
      rewrite H' in H; injection H as H; subst a
  | H : ?m = Ok ?a, H' : ?m = Ok ?b |- _ =>
      rewrite H' in H; injection H as H; subst a
  end.

(** Reading an integer field back from its slot: walk back to its own
    placement. *)
Ltac read_field :=
  match goal with
  | Hv : ?r !! ?key = Some ?v, Hs : fmt_int ?v ?w = Ok ?s,
    Hf : int_fits ?r ?key ?w |- slot _ ?col ?w = ?s =>
      apply slot_of_buffer;
      [ exact (fits_length _ _ _ _ _ Hf Hv Hs) | lia | intros ? ? |
        eapply format_d_safe; exact Hs ];
      pose proof (fits_length _ _ _ _ _ Hf Hv Hs);
      walk;
      match goal with
      | H : place_int _ _ ?c key w = Ok _ |- _ !! (?p + ?k) = _ =>
          replace (p + k) with (Z.to_nat (c - 1) + k) by lia;
          eapply place_int_at; [lia | eassumption | eassumption | eassumption | lia]
      end
  end.

(** Record 1.2: when every flag fits its width, each flag's [fmt_int]
    rendering stands in its own columns of the finished line: IAER in
    19-20, IATM in 50, IXSECT in 70, NUMANGS in 84-85, IOUT in 88-90,
    IDRV in 92, IMCA in 94 and ICLD in 95. *)
Theorem record_1_2_layout (cfg : config) (r : record) (L : string) :
  cfg !! "record_1_2" = Some r ->
  int_fits r "IAER" 2 -> int_fits r "IATM" 1 -> int_fits r "IXSECT" 1 ->
  int_fits r "NUMANGS" 2 -> int_fits r "IOUT" 3 -> int_fits r "IDRV" 1 ->
  int_fits r "IMCA" 1 -> int_fits r "ICLD" 1 ->
  build_record_1_2 cfg = Ok L ->
  forall key col w v s,
    In (key, col, w) [("IAER", 19, 2); ("IATM", 50, 1); ("IXSECT", 70, 1);
                      ("NUMANGS", 84, 2); ("IOUT", 88, 3); ("IDRV", 92, 1);
                      ("IMCA", 94, 1); ("ICLD", 95, 1)] ->
    r !! key = Some v -> fmt_int v w = Ok s -> slot L col w = s.
Proof.
  intros Hr F1 F2 F3 F4 F5 F6 F7 F8 HL key col w v s Hin Hv Hs.
  unfold build_record_1_2 in HL. inv_ok.
  apply getitem_ok in Ha. rewrite Hr in Ha. injection Ha as <-.
  simpl in Hin. repeat destruct Hin as [[= <- <- <-]|Hin]; [..|contradiction].
  all: read_field.
Qed.

Lemma record_1_2_layout_witness :
  exists L, build_record_1_2 (cfg_full 1 0) = Ok L /\ slot L 50 1 = "1" /\ slot L 19 2 = " 0".
Proof.
  destruct (build_record_1_2 (cfg_full 1 0)) as [L|e] eqn:HL;
    [|vm_compute in HL; discriminate HL].
  exists L. split; [reflexivity|]. split.
  - refine (record_1_2_layout (cfg_full 1 0) (rec_1_2 1 0) L _ _ _ _ _ _ _ _ _ HL
              "IATM" 50 1 (VInt 1) "1" _ _ _).
    all: first [ reflexivity | (eexists; split; [reflexivity | simpl; lia]) | simpl; tauto ].
  - refine (record_1_2_layout (cfg_full 1 0) (rec_1_2 1 0) L _ _ _ _ _ _ _ _ _ HL
              "IAER" 19 2 (VInt 0) " 0" _ _ _).
    all: first [ reflexivity | (eexists; split; [reflexivity | simpl; lia]) | simpl; tauto ].
Defined.

(** Record 3.1: when every integer field fits its width, each one's
    [fmt_int] rendering stands in its own columns of the finished line:
    MODEL in 1-5, IBMAX in 11-15, NOPRNT in 21-25, NMOL in 26-30, IPUNCH
    in 31-35 and MUNITS in 39-40, whatever RE and CO2MX are. *)
Theorem record_3_1_layout (cfg : config) (r : record) (L : string) :
  cfg !! "record_3_1" = Some r ->
  int_fits r "MODEL" 5 -> int_fits r "IBMAX" 5 -> int_fits r "NOPRNT" 5 ->
  int_fits r "NMOL" 5 -> int_fits r "IPUNCH" 5 -> int_fits r "MUNITS" 2 ->
  build_record_3_1 cfg = Ok L ->
  forall key col w v s,
    In (key, col, w) [("MODEL", 1, 5); ("IBMAX", 11, 5); ("NOPRNT", 21, 5);
                      ("NMOL", 26, 5); ("IPUNCH", 31, 5); ("MUNITS", 39, 2)] ->
    r !! key = Some v -> fmt_int v w = Ok s -> slot L col w = s.
Proof.
  intros Hr F1 F2 F3 F4 F5 F6 HL key col w v s Hin Hv Hs.
  unfold build_record_3_1 in HL. inv_ok.
  all: apply getitem_ok in Ha; rewrite Hr in Ha; injection Ha as <-.
  all: simpl in Hin; repeat destruct Hin as [[= <- <- <-]|Hin]; [..|contradiction].
  all: read_field.
Qed.

Lemma record_3_1_layout_witness :
  exists L, build_record_3_1 (cfg_full 1 0) = Ok L /\ slot L 26 5 = "    7".
Proof.
  destruct (build_record_3_1 (cfg_full 1 0)) as [L|e] eqn:HL;
    [|vm_compute in HL; discriminate HL].
  exists L. split; [reflexivity|].
  refine (record_3_1_layout (cfg_full 1 0) rec_3_1 L _ _ _ _ _ _ _ HL
            "NMOL" 26 5 (VInt 7) "    7" _ _ _).
  all: first [ reflexivity | (eexists; split; [reflexivity | simpl; lia]) | simpl; tauto ].
Defined.

(** Record 3.2: when the [fmt_float_f(HTOA, 10, 1)] rendering fits in
    ten columns it is exactly ten characters long and stands in columns
    11-20, whatever HBOUND is. *)
Theorem record_3_2_htoa (cfg : config) (r : record) (v : value) (s L : string) :
  cfg !! "record_3_2" = Some r -> r !! "HTOA" = Some v ->
  fmt_float_f v 10 1 = Ok s -> String.length s <= 10 ->
  build_record_3_2 cfg = Ok L ->
  String.length s = 10 /\ slot L 11 10 = s.
Proof.
  intros Hr Hv Hs Hw HL.
  assert (H10 : String.length s = 10).
  { unfold fmt_float_f, format_f in Hs. inv_ok. rewrite pad_left_length in *. lia. }
  split; [exact H10|].
  unfold build_record_3_2 in HL. inv_ok. settle.
  apply slot_of_buffer; [lia | lia | intros k Hk |
                         unfold fmt_float_f in *; eapply format_f_safe; eassumption].
  replace (11 - 1 + k) with (Z.to_nat (11 - 1) + k) by lia.
  eapply place_str_at; [lia | eassumption | exact Hk].
Qed.

Lemma record_3_2_htoa_witness :
  build_record_3_2 (cfg_full 1 0) = Ok "0.0            100.0" /\
  String.length "     100.0" = 10 /\ slot "0.0            100.0" 11 10 = "     100.0".
Proof.
  split; [vm_compute; reflexivity|].
  apply (record_3_2_htoa (cfg_full 1 0) rec_3_2 (VInt 100));
    first [vm_compute; reflexivity | simpl; lia].
Defined.

(** Record 1.4: when IEMIS and IREFLECT fit in one column, their
    [fmt_int] renderings stand in columns 12 and 15 (whatever TBOUND is);
    and an emissivity at position [i] of SEMISS whose [f"{v:5.2f}"]
    rendering fits in five columns stands in columns [16+5i .. 20+5i]. *)
Theorem record_1_4_layout (cfg : config) (r : record) (L : string) :
  cfg !! "record_1_4" = Some r ->
  int_fits r "IEMIS" 1 -> int_fits r "IREFLECT" 1 ->
  build_record_1_4 cfg = Ok L ->
  (forall key col v s, In (key, col) [("IEMIS", 12); ("IREFLECT", 15)] ->
     r !! key = Some v -> fmt_int v 1 = Ok s -> slot L col 1 = s) /\
  (forall vals i v s, r !! "SEMISS" = Some (VList vals) -> vals !! i = Some v ->
     format_f v 5 2 = Ok s -> String.length s <= 5 ->
     String.length s = 5 /\ slot L (16 + 5 * i) 5 = s).
Proof.
  intros Hr F1 F2 HL. unfold build_record_1_4 in HL. inv_ok.
  apply getitem_ok in Ha. rewrite Hr in Ha. injection Ha as <-. split.
  - intros key col v s Hin Hv Hs.
    simpl in Hin. repeat destruct Hin as [[= <- <-]|Hin]; [..|contradiction].
    all: read_field.
  - intros vals i v s Hs Hi Hf Hw.
    assert (H5 : String.length s = 5).
    { unfold format_f in Hf. inv_ok. rewrite pad_left_length in *. lia. }
    split; [exact H5|].
    unfold dict_get in Ha5. rewrite Hs in Ha5. simpl in Ha5.
    destruct (place_semiss_at _ _ _ 0 i v Ha5 Hi) as (s' & l1 & l2 & Hs' & Hp & Hrest).
    rewrite Hf in Hs'. injection Hs' as <-.
    apply slot_of_buffer; [lia | lia | | eapply format_f_safe; exact Hf].
    intros k Hk. rewrite Hrest by lia.
    replace (16 + 5 * i - 1 + k) with (Z.to_nat (16 + Z.of_nat (0 + i) * 5 - 1) + k) by lia.
    eapply place_str_at; [lia | exact Hp | exact Hk].
Qed.

Lemma record_1_4_layout_witness :
  build_record_1_4 (cfg_full 1 0) = Ok "288.0      1  0 0.98 0.98" /\
  slot "288.0      1  0 0.98 0.98" 12 1 = "1" /\
  slot "288.0      1  0 0.98 0.98" (16 + 5 * 1) 5 = " 0.98".
Proof.
  split; [vm_compute; reflexivity|].
  destruct (record_1_4_layout (cfg_full 1 0) rec_1_4 "288.0      1  0 0.98 0.98")
    as [A B].
  all: first [ reflexivity | (eexists; split; [reflexivity | simpl; lia]) | idtac ].
  split.
  - apply (A "IEMIS" 12 (VInt 1)); first [simpl; tauto | reflexivity].
  - apply (B [v098; v098] 1 v098); first [vm_compute; reflexivity | simpl; lia].
Defined.

Lemma place_layer_before fs (r : record) (keys : list string) (line line' : list ascii)
    (i p : nat) :
  place_layer fs r line i keys = Ok line' -> p < 10 * i -> line' !! p = line !! p.
Proof.
  revert line i. induction keys as [|key keys IH]; intros line i H Hp; simpl in H.
  - by injection H as <-.
  - inv_ok. erewrite IH by (eassumption || lia).
    eapply place_str_before; [| eassumption |]; lia.
Qed.

Lemma place_layer_at fs (r : record) (keys : list string) (line line' : list ascii)
    (j i : nat) (key : string) :
  place_layer fs r line j keys = Ok line' -> keys !! i = Some key ->
  exists f s line1 line2, py_float fs (dict_get r key (VInt 0)) = Ok f /\
    fmt_float_f (VFloat f) 10 0 = Ok s /\
    place_str line1 (1 + Z.of_nat (j + i) * 10) s = Ok line2 /\
    (forall p, p < 10 * (j + i + 1) -> line' !! p = line2 !! p).
Proof.
  revert line j i. induction keys as [|k0 keys IH]; intros line j i H Hi; [discriminate Hi|].
  simpl in H. inv_ok. destruct i as [|i]; simpl in Hi.
  - injection Hi as ->. exists a, (pad_left 10 (float_f_body a 0)), line, a0.
    rewrite Nat.add_0_r. repeat split; auto.
    intros p Hp. eapply place_layer_before; [eassumption | lia].
  - destruct (IH a0 (S j) i H Hi) as (f & s & l1 & l2 & Hf & Hs & Hp & Hr).
    exists f, s, l1, l2. replace (j + S i) with (S j + i) by lia. auto.
Qed.

(** Record 3.3A: the [i]-th layer parameter (AVTRAT, TDIFF1, TDIFF2,
    ALTD1, ALTD2) stands in columns [1+10i .. 10+10i] when its
    [fmt_float_f(float(v), 10, 0)] rendering fits in ten columns,
    whatever the other parameters are; a parameter missing from the
    record reads as ["         0"] there. *)
Theorem record_3_3a_layout fs (cfg : config) (r : record) (L : string) :
  cfg !! "record_3_3a" = Some r -> build_record_3_3a fs cfg = Ok L ->
  (forall i key f s, layer_keys !! i = Some key ->
     py_float fs (dict_get r key (VInt 0)) = Ok f ->
     fmt_float_f (VFloat f) 10 0 = Ok s -> String.length s <= 10 ->
     slot L (1 + 10 * i) 10 = s) /\
  (forall i key, layer_keys !! i = Some key -> r !! key = None ->
     slot L (1 + 10 * i) 10 = "         0").
Proof.
  intros Hr HL. unfold build_record_3_3a in HL.
  destruct (getitem cfg "record_3_3a") as [r'|] eqn:Ha; [|discriminate HL]. cbn [bind] in HL.
  apply getitem_ok in Ha. rewrite Hr in Ha. injection Ha as <-.
  destruct (place_layer fs r (make_line 50) 0 layer_keys) as [a0|] eqn:Ha0;
    [|discriminate HL]. cbn [bind] in HL. injection HL as <-.
  assert (Hread : forall i key f s, layer_keys !! i = Some key ->
     py_float fs (dict_get r key (VInt 0)) = Ok f ->
     fmt_float_f (VFloat f) 10 0 = Ok s -> String.length s <= 10 ->
     slot (line_to_str a0) (1 + 10 * i) 10 = s).
  { intros i key f s Hi Hf Hs Hw.
    assert (H10 : String.length s = 10).
    { unfold fmt_float_f, format_f in Hs. inv_ok. rewrite pad_left_length in *. lia. }
    destruct (place_layer_at _ _ _ _ _ 0 i key Ha0 Hi)
      as (f' & s' & l1 & l2 & Hf' & Hs' & Hp & Hrest).
    rewrite Hf in Hf'. injection Hf' as <-. rewrite Hs in Hs'. injection Hs' as <-.
    apply slot_of_buffer; [lia | lia | |
                           unfold fmt_float_f in Hs; eapply format_f_safe; exact Hs].
    intros k Hk. rewrite Hrest by lia.
    replace (1 + 10 * i - 1 + k) with (Z.to_nat (1 + Z.of_nat (0 + i) * 10 - 1) + k) by lia.
    eapply place_str_at; [lia | exact Hp | exact Hk]. }
  split; [exact Hread|].
  intros i key Hi Hn. apply (Hread i key (PFin false 0 0)); [exact Hi | | reflexivity | simpl; lia].
  unfold dict_get. rewrite Hn. reflexivity.
Qed.

Lemma record_3_3a_layout_witness :
  build_record_3_3a float_of_str_none (cfg_full 1 0)
    = Ok "         5         0         0         0         0" /\
  slot "         5         0         0         0         0" (1 + 10 * 0) 10 = "         5" /\
  slot "         5         0         0         0         0" (1 + 10 * 1) 10 = "         0".
Proof.
  split; [vm_compute; reflexivity|].
  destruct (record_3_3a_layout float_of_str_none (cfg_full 1 0) rec_3_3a
              "         5         0         0         0         0") as [A B];
    [vm_compute; reflexivity | vm_compute; reflexivity |].
  split.
  - apply (A 0 "AVTRAT" (PFin false 5 0)); first [vm_compute; reflexivity | simpl; lia].
  - apply (B 1 "TDIFF1"); vm_compute; reflexivity.
Defined.

(* ------------------------------------------------------------------ *)
(** ** Line widths and the limit on emissivities *)

Lemma format_f_length (v : value) (w d : nat) (s : string) :
  format_f v w d = Ok s -> w <= String.length s.
Proof. unfold format_f. intros H. inv_ok. rewrite pad_left_length. lia. Qed.

Lemma place_int_length (r : record) (line line' : list ascii) (col : Z) (key : string)
    (w : nat) :
  (1 <= col)%Z -> place_int r line col key w = Ok line' -> length line' = length line.
Proof. intros H1 H. unfold place_int in H. inv_ok. eapply place_str_length; eauto. Qed.

Lemma place_semiss_count (vals : list value) (line line' : list ascii) (j : nat) :
  length line = 95 -> j <= 16 -> place_semiss line j vals = Ok line' ->
  j + length vals <= 16.
Proof.
  revert line j. induction vals as [|v vals IH]; intros line j Hl Hj H; simpl in *; [lia|].
  inv_ok. apply format_f_length in Ha.
  pose proof Ha0 as Hb. unfold place_str in Hb.
  apply place_chars_bound in Hb;
    [| destruct a; simpl in Ha; [lia | discriminate] | lia].
  rewrite <- length_list_ascii in Hb.
  apply place_str_length in Ha0; [|lia].
  apply IH in H; lia.
Qed.

(** Record 1.4 takes at most 16 emissivities: with 17 or more values in
    SEMISS the 17th would start at column 96 of the 95-column line, and
    the builder never succeeds. *)
Theorem record_1_4_semiss_max (cfg : config) (r : record) (vals : list value) :
  cfg !! "record_1_4" = Some r -> r !! "SEMISS" = Some (VList vals) ->
  16 < length vals ->
  forall L, build_record_1_4 cfg <> Ok L.
Proof.
  intros Hr Hs Hn L HL. unfold build_record_1_4 in HL. inv_ok.
  apply getitem_ok in Ha. rewrite Hr in Ha. injection Ha as <-.
  unfold dict_get in Ha5. rewrite Hs in Ha5. simpl in Ha5.
  apply place_semiss_count in Ha5; [lia | | lia].
  apply place_int_length in Ha4; [|lia]. apply place_int_length in Ha3; [|lia].
  apply place_str_length in Ha2; [|lia]. unfold make_line in Ha2. rewrite repeat_length in Ha2.
  lia.
Qed.

Lemma record_1_4_semiss_max_witness :
  16 < length (repeat v098 17) /\
  build_record_1_4 cfg_semiss17 = Err IndexError /\
  forall L, build_record_1_4 cfg_semiss17 <> Ok L.
Proof.
  split; [simpl; lia|]. split; [vm_compute; reflexivity|].
  apply (record_1_4_semiss_max cfg_semiss17
           (<["SEMISS" := VList (repeat v098 17)]> rec_1_4) (repeat v098 17));
    first [vm_compute; reflexivity | simpl; lia].
Defined.

Lemma place_semiss_length (vals : list value) (line line' : list ascii) (i : nat) :
  place_semiss line i vals = Ok line' -> length line' = length line.
Proof.
  revert line i. induction vals as [|v vals IH]; intros line i H; simpl in H.
  - by injection H as <-.
  - inv_ok. erewrite IH by eassumption. eapply place_str_length; [|eassumption]. lia.
Qed.

Lemma semiss_loop_length (v : value) (line line' : list ascii) :
  semiss_loop line v = Ok line' -> length line' = length line.
Proof.
  destruct v as [| | | s | vals |]; simpl; intros H; try discriminate.
  - destruct s; [by injection H as <- | discriminate].
  - eapply place_semiss_length; eassumption.
Qed.

Lemma line_to_str_length (line : list ascii) :
  String.length (line_to_str line) <= length line.
Proof.
  destruct (rstrip_split line) as (t & Ht & _). unfold line_to_str.
  rewrite length_string_of_list_ascii. rewrite Ht at 2. rewrite length_app. lia.
Qed.

Ltac len_chain :=
  repeat match goal with
  | H : place_int _ _ _ _ _ = Ok _ |- _ => apply place_int_length in H; [|lia]
  | H : place_str _ _ _ = Ok _ |- _ => apply place_str_length in H; [|lia]
  | H : semiss_loop _ _ = Ok _ |- _ => apply semiss_loop_length in H
  end.

(** No record line is longer than its buffer, whatever the field values:
    95 characters for records 1.2 and 1.4, 80 for record 3.1, 20 for
    record 3.2 and 50 for record 3.3A.  An overlong field overwrites its
    neighbours or raises IndexError; it never widens the line. *)
Theorem record_line_widths fs (cfg : config) :
  (forall L, build_record_1_2 cfg = Ok L -> String.length L <= 95) /\
  (forall L, build_record_1_4 cfg = Ok L -> String.length L <= 95) /\
  (forall L, build_record_3_1 cfg = Ok L -> String.length L <= 80) /\
  (forall L, build_record_3_2 cfg = Ok L -> String.length L <= 20) /\
  (forall L, build_record_3_3a fs cfg = Ok L -> String.length L <= 50).
Proof.
  repeat split; intros L HL;
    unfold build_record_1_2, build_record_1_4, build_record_3_1, build_record_3_2,
      build_record_3_3a in HL; inv_ok; len_chain;
    match goal with |- String.length (line_to_str ?l) <= _ =>
      pose proof (line_to_str_length l) end;
    unfold make_line in *; rewrite ?repeat_length in *; lia.
Qed.

(* ------------------------------------------------------------------ *)
(** ** Which records the document depends on *)

(** Whenever IATM does not compare equal to 1 (2, 0, -1, 0.5, the
    string ["1"], ...), records 3.1, 3.2 and 3.3A are never read: the
    outcome of [generate_input_rrtm], success or error, is the same for
    every configuration with the same records 1.1, 1.2 and 1.4; and a
    document is the two header lines, the record 1.2 and 1.4 lines and
    an empty line. *)
Theorem generate_iatm_not_1 fs (cfg : config) (r12 : record) (v : value) :
  cfg !! "record_1_2" = Some r12 -> r12 !! "IATM" = Some v -> py_eq_num v 1 = false ->
  (forall cfg' : config,
     cfg' !! "record_1_1" = cfg !! "record_1_1" ->
     cfg' !! "record_1_2" = cfg !! "record_1_2" ->
     cfg' !! "record_1_4" = cfg !! "record_1_4" ->
     generate_input_rrtm fs cfg' = generate_input_rrtm fs cfg) /\
  (forall doc, generate_input_rrtm fs cfg = Ok doc ->
     exists h c l12 l14,
       build_record_1_1 cfg = Ok [VStr h; VStr c] /\ build_record_1_2 cfg = Ok l12 /\
       build_record_1_4 cfg = Ok l14 /\
       doc = String.concat newline [h; c; l12; l14; ""] ++ newline).
Proof.
  intros H12 Hv Hne. split.
  - intros cfg' E11 E12 E14. unfold generate_input_rrtm, generate_lines.
    rewrite (build_record_1_1_ext cfg cfg' E11), (build_record_1_2_ext cfg cfg' E12),
      (build_record_1_4_ext cfg cfg' E14), (getitem_same _ _ _ E12).
    rewrite (getitem_some _ _ _ H12). cbn [bind]. rewrite (getitem_some _ _ _ Hv).
    cbn [bind]. by rewrite Hne.
  - intros doc Hdoc. destruct (generate_doc _ _ _ Hdoc) as (ls & Hl & ->).
    unfold generate_lines in Hl. inv_ok.
    all: apply getitem_ok in Ha2; rewrite H12 in Ha2; injection Ha2 as <-.
    all: apply getitem_ok in Ha3; rewrite Hv in Ha3; injection Ha3 as <-.
    all: try congruence.
    destruct (build_record_1_1_shape _ _ Ha) as (h & c & ->).
    destruct ls as [|h' [|c' [|l12' [|l14' [|e [|? ?]]]]]]; simpl in Hl; try discriminate.
    injection Hl; intros; subst. do 4 eexists. repeat split; eassumption || reflexivity.
Qed.

Lemma generate_iatm_not_1_witness :
  generate_input_rrtm float_of_str_none (cfg_full 2 0) =
    generate_input_rrtm float_of_str_none (delete "record_3_1" (cfg_full 2 0)) /\
  exists doc, generate_input_rrtm float_of_str_none (cfg_full 2 0) = Ok doc /\
    exists h c l12 l14,
      build_record_1_1 (cfg_full 2 0) = Ok [VStr h; VStr c] /\
      build_record_1_2 (cfg_full 2 0) = Ok l12 /\
      build_record_1_4 (cfg_full 2 0) = Ok l14 /\
      doc = String.concat newline [h; c; l12; l14; ""] ++ newline.
Proof.
  destruct (generate_iatm_not_1 float_of_str_none (cfg_full 2 0) (rec_1_2 2 0) (VInt 2))
    as [A B]; [vm_compute; reflexivity | vm_compute; reflexivity | reflexivity |].
  split.
  - symmetry. apply A; vm_compute; reflexivity.
  - destruct (generate_input_rrtm float_of_str_none (cfg_full 2 0)) as [doc|e] eqn:Hd;
      [| vm_compute in Hd; discriminate Hd].
    exists doc. split; [reflexivity|]. apply B. reflexivity.
Defined.

(** When IATM compares equal to 1 but IBMAX (default 0) does not
    compare equal to 0, record 3.3A is never read: the outcome of
    [generate_input_rrtm] is the same for every configuration that
    differs only in [record_3_3a]; and a document is the two header
    lines, the record 1.2, 1.4, 3.1 and 3.2 lines and an empty line. *)
Theorem generate_ibmax_nonzero fs (cfg : config) (r12 r31 : record) (v : value) :
  cfg !! "record_1_2" = Some r12 -> r12 !! "IATM" = Some v -> py_eq_num v 1 = true ->
  cfg !! "record_3_1" = Some r31 -> py_eq_num (dict_get r31 "IBMAX" (VInt 0)) 0 = false ->
  (forall cfg' : config,
     (forall k, k <> "record_3_3a" -> cfg' !! k = cfg !! k) ->
     generate_input_rrtm fs cfg' = generate_input_rrtm fs cfg) /\
  (forall doc, generate_input_rrtm fs cfg = Ok doc ->
     exists h c l12 l14 l31 l32,
       build_record_1_1 cfg = Ok [VStr h; VStr c] /\ build_record_1_2 cfg = Ok l12 /\
       build_record_1_4 cfg = Ok l14 /\ build_record_3_1 cfg = Ok l31 /\
       build_record_3_2 cfg = Ok l32 /\
       doc = String.concat newline [h; c; l12; l14; l31; l32; ""] ++ newline).
Proof.
  intros H12 Hv Heq H31 Hib. split.
  - intros cfg' E. unfold generate_input_rrtm, generate_lines.
    rewrite (build_record_1_1_ext cfg cfg'), (build_record_1_2_ext cfg cfg'),
      (build_record_1_4_ext cfg cfg'), (build_record_3_1_ext cfg cfg'),
      (build_record_3_2_ext cfg cfg'), (getitem_same _ _ "record_1_2"),
      (getitem_same _ _ "record_3_1") by (apply E; discriminate).
    rewrite (getitem_some _ _ _ H12). cbn [bind]. rewrite (getitem_some _ _ _ Hv).
    cbn [bind]. rewrite Heq.
    destruct (build_record_1_1 cfg); cbn [bind]; [|reflexivity].
    destruct (build_record_1_2 cfg); cbn [bind]; [|reflexivity].
    destruct (build_record_1_4 cfg); cbn [bind]; [|reflexivity].
    destruct (build_record_3_1 cfg); cbn [bind]; [|reflexivity].
    destruct (build_record_3_2 cfg); cbn [bind]; [|reflexivity].
    rewrite (getitem_some _ _ _ H31). cbn [bind]. by rewrite Hib.
  - intros doc Hdoc. destruct (generate_doc _ _ _ Hdoc) as (ls & Hl & ->).
    unfold generate_lines in Hl. inv_ok.
    all: apply getitem_ok in Ha2; rewrite H12 in Ha2; injection Ha2 as <-.
    all: apply getitem_ok in Ha3; rewrite Hv in Ha3; injection Ha3 as <-.
    all: try congruence.
    all: apply getitem_ok in Ha6; rewrite H31 in Ha6; injection Ha6 as <-.
    all: try congruence.
    destruct (build_record_1_1_shape _ _ Ha) as (h & c & ->).
    destruct ls as [|h' [|c' [|? [|? [|? [|? [|e [|? ?]]]]]]]]; simpl in Hl; try discriminate.
    injection Hl; intros; subst. do 6 eexists. repeat split; eassumption || reflexivity.
Qed.

Lemma generate_ibmax_nonzero_witness :
  generate_input_rrtm float_of_str_none (delete "record_3_3a" cfg_ibmax1) =
    generate_input_rrtm float_of_str_none cfg_ibmax1 /\
  exists doc, generate_input_rrtm float_of_str_none cfg_ibmax1 = Ok doc /\
    exists h c l12 l14 l31 l32,
      build_record_1_1 cfg_ibmax1 = Ok [VStr h; VStr c] /\
      build_record_1_2 cfg_ibmax1 = Ok l12 /\ build_record_1_4 cfg_ibmax1 = Ok l14 /\
      build_record_3_1 cfg_ibmax1 = Ok l31 /\ build_record_3_2 cfg_ibmax1 = Ok l32 /\
      doc = String.concat newline [h; c; l12; l14; l31; l32; ""] ++ newline.
Proof.
  destruct (generate_ibmax_nonzero float_of_str_none cfg_ibmax1 (rec_1_2 1 0)
              (<["IBMAX" := VInt 1]> rec_3_1) (VInt 1))
    as [A B]; try (vm_compute; reflexivity).
  split.
  - apply A. intros k Hk. by rewrite lookup_delete_ne by congruence.
  - destruct (generate_input_rrtm float_of_str_none cfg_ibmax1) as [doc|e] eqn:Hd;
      [| vm_compute in Hd; discriminate Hd].
    exists doc. split; [reflexivity|]. apply B. reflexivity.
Defined.

(** * The types of the fields a document was built from *)

Lemma place_int_valued (r : record) (line line' : list ascii) (col : Z) (key : string)
    (w : nat) :
  place_int r line col key w = Ok line' -> int_valued r key.
Proof.
  unfold place_int. intros H. inv_ok. apply getitem_ok in Ha. exists a. split; [exact Ha|].
  destruct a; simpl in Ha0; try discriminate; exact I.
Qed.

Ltac types_tac :=
  inv_ok;
  match goal with H : getitem _ _ = Ok ?r |- exists _, _ =>
    exists r; split; [by apply getitem_ok|] end;
  repeat constructor; eapply place_int_valued; eassumption.

Lemma build_record_1_2_types (cfg : config) (L : string) :
  build_record_1_2 cfg = Ok L ->
  exists r, cfg !! "record_1_2" = Some r /\
    Forall (int_valued r) ["IAER"; "IATM"; "IXSECT"; "NUMANGS"; "IOUT"; "IDRV"; "IMCA"; "ICLD"].
Proof. unfold build_record_1_2. intros H. types_tac. Qed.

Lemma build_record_1_4_types (cfg : config) (L : string) :
  build_record_1_4 cfg = Ok L ->
  exists r, cfg !! "record_1_4" = Some r /\ Forall (int_valued r) ["IEMIS"; "IREFLECT"].
Proof. unfold build_record_1_4. intros H. types_tac. Qed.

Lemma build_record_3_1_types (cfg : config) (L : string) :
  build_record_3_1 cfg = Ok L ->
  exists r, cfg !! "record_3_1" = Some r /\
    Forall (int_valued r) ["MODEL"; "IBMAX"; "NOPRNT"; "NMOL"; "IPUNCH"; "MUNITS"].
Proof. unfold build_record_3_1. intros H. types_tac. Qed.

Lemma generate_lines_inv fs (cfg : config) (lines : list value) :
  generate_lines fs cfg = Ok lines ->
  exists hv l12 l14 rest, build_record_1_1 cfg = Ok hv /\ build_record_1_2 cfg = Ok l12 /\
    build_record_1_4 cfg = Ok l14 /\ lines = app hv rest /\
    (forall r12 v, cfg !! "record_1_2" = Some r12 -> r12 !! "IATM" = Some v ->
       py_eq_num v 1 = true -> exists l31, build_record_3_1 cfg = Ok l31).
Proof.
  unfold generate_lines. intros H.
  destruct (build_record_1_1 cfg) as [hv|] eqn:E11; cbn [bind] in H; [|discriminate H].
  destruct (build_record_1_2 cfg) as [l12|] eqn:E12; cbn [bind] in H; [|discriminate H].
  destruct (build_record_1_4 cfg) as [l14|] eqn:E14; cbn [bind] in H; [|discriminate H].
  destruct (getitem cfg "record_1_2") as [r12|] eqn:G12; cbn [bind] in H; [|discriminate H].
  destruct (getitem r12 "IATM") as [v|] eqn:Gv; cbn [bind] in H; [|discriminate H].
  apply getitem_ok in G12, Gv.
  assert (Hs : py_eq_num v 1 = true -> exists l31, build_record_3_1 cfg = Ok l31).
  { intros Heq. rewrite Heq in H.
    destruct (build_record_3_1 cfg) as [l31|]; cbn [bind] in H; [eauto | discriminate H]. }
  exists hv, l12, l14. destruct (py_eq_num v 1) eqn:Eq; inv_ok.
  all: eexists; repeat split; try reflexivity.
  all: intros r12' v' H12 Hv' Heq; rewrite G12 in H12; injection H12 as <-;
       rewrite Gv in Hv'; injection Hv' as <-; first [congruence | eauto].
Qed.

(** A configuration that produces a document has string header lines in
    record 1.1, int (or bool) values for the eight flags of record 1.2
    and for IEMIS and IREFLECT of record 1.4, and, when IATM compares
    equal to 1, int values for the six integer fields of record 3.1:
    [fmt_int] rejects any other value with a ValueError. *)
Theorem generate_field_types fs (cfg : config) (doc : string) :
  generate_input_rrtm fs cfg = Ok doc ->
  (exists r11 h c, cfg !! "record_1_1" = Some r11 /\
     r11 !! "header" = Some (VStr h) /\ r11 !! "control_line" = Some (VStr c)) /\
  (exists r12, cfg !! "record_1_2" = Some r12 /\
     Forall (int_valued r12) ["IAER"; "IATM"; "IXSECT"; "NUMANGS"; "IOUT"; "IDRV"; "IMCA"; "ICLD"]) /\
  (exists r14, cfg !! "record_1_4" = Some r14 /\ Forall (int_valued r14) ["IEMIS"; "IREFLECT"]) /\
  (forall r12 v, cfg !! "record_1_2" = Some r12 -> r12 !! "IATM" = Some v ->
     py_eq_num v 1 = true ->
     exists r31, cfg !! "record_3_1" = Some r31 /\
       Forall (int_valued r31) ["MODEL"; "IBMAX"; "NOPRNT"; "NMOL"; "IPUNCH"; "MUNITS"]).
Proof.
  intros Hdoc. destruct (generate_doc _ _ _ Hdoc) as (ls & Hl & _).
  destruct (generate_lines_inv _ _ _ Hl) as (hv & l12 & l14 & rest & E11 & E12 & E14 & Hls & H31).
  split; [| split; [eapply build_record_1_2_types; eassumption |
             split; [eapply build_record_1_4_types; eassumption |]]].
  - unfold build_record_1_1 in E11. inv_ok.
    destruct ls as [|h' [|c' ls]]; simpl in Hls; try discriminate.
    injection Hls; intros; subst. apply getitem_ok in Ha, Ha0, Ha1. exists a, h', c'. auto.
  - intros r12 v H12 Hv Heq. destruct (H31 r12 v H12 Hv Heq) as (l31 & E31).
    eapply build_record_3_1_types; eassumption.
Qed.

Lemma generate_field_types_witness :
  exists doc, generate_input_rrtm float_of_str_none (cfg_full 1 0) = Ok doc /\
  (exists r11 h c, cfg_full 1 0 !! "record_1_1" = Some r11 /\
     r11 !! "header" = Some (VStr h) /\ r11 !! "control_line" = Some (VStr c)) /\
  (exists r12, cfg_full 1 0 !! "record_1_2" = Some r12 /\
     Forall (int_valued r12) ["IAER"; "IATM"; "IXSECT"; "NUMANGS"; "IOUT"; "IDRV"; "IMCA"; "ICLD"]) /\
  (exists r14, cfg_full 1 0 !! "record_1_4" = Some r14 /\ Forall (int_valued r14) ["IEMIS"; "IREFLECT"]) /\
  (forall r12 v, cfg_full 1 0 !! "record_1_2" = Some r12 -> r12 !! "IATM" = Some v ->
     py_eq_num v 1 = true ->
     exists r31, cfg_full 1 0 !! "record_3_1" = Some r31 /\
       Forall (int_valued r31) ["MODEL"; "IBMAX"; "NOPRNT"; "NMOL"; "IPUNCH"; "MUNITS"]).
Proof.
  destruct (generate_input_rrtm float_of_str_none (cfg_full 1 0)) as [doc|e] eqn:Hd;
    [| vm_compute in Hd; discriminate Hd].
  exists doc. split; [reflexivity|]. exact (generate_field_types _ _ _ Hd).
Defined.

(** * Ints too large for a float *)

Lemma round_half_even_ge (num den : N) : (num / den <= round_half_even num den)%N.
Proof.
  unfold round_half_even.
  destruct (N.compare _ _); [destruct (N.even _) |  |]; lia.
Qed.

Lemma int_to_float_overflow (z : Z) :
  (2 ^ 1024 <= Z.abs z)%Z -> int_to_float z = Err OverflowError.
Proof.
  intros Hz. unfold int_to_float.
  assert (Hn : (2 ^ 1024 <= Z.abs_N z)%N).
  { apply N2Z.inj_le. rewrite N2Z.inj_pow, Zabs2N.id_abs. exact Hz. }
  set (n := Z.abs_N z) in *.
  assert (H53 : (2 ^ 53 <= n)%N).
  { etransitivity; [|exact Hn]. apply N.pow_le_mono_r; lia. }
  replace (n <? 2 ^ 53)%N with false by (symmetry; apply N.ltb_ge; exact H53).
  assert (Hpos : (0 < n)%N) by (eapply N.lt_le_trans; [|exact H53]; apply N.neq_0_lt_0, N.pow_nonzero; lia).
  set (L := N.log2 n).
  assert (HL : (1024 <= L)%N).
  { rewrite <- (N.log2_pow2 1024) by lia. apply N.log2_le_mono. exact Hn. }
  assert (H2L : (2 ^ L <= n)%N) by (apply N.log2_spec; exact Hpos).
  assert (Hsize : N.size n = N.succ L) by (apply N.size_log2; lia).
  rewrite Hsize.
  set (k := (N.succ L - 53)%N).
  assert (Hk : (L = 52 + k)%N) by lia.
  assert (Hq : (2 ^ 52 <= n / 2 ^ k)%N).
  { apply N.div_le_lower_bound; [apply N.pow_nonzero; lia|].
    rewrite <- N.pow_add_r. replace (k + 52)%N with L by lia. exact H2L. }
  pose proof (round_half_even_ge n (2 ^ k)) as Hm.
  replace (2 ^ 1024 <=? round_half_even n (2 ^ k) * 2 ^ k)%N with true; [reflexivity|].
  symmetry. apply N.leb_le.
  transitivity (2 ^ 52 * 2 ^ k)%N.
  - rewrite <- N.pow_add_r. apply N.pow_le_mono_r; lia.
  - apply N.mul_le_mono_r. lia.
Qed.

(** An int whose magnitude is at least 2^1024 cannot be converted to a
    float: both float formatters and [float(val)] in [build_record_3_3a]
    fail with OverflowError on it, whatever the width and decimals. *)
Theorem huge_int_overflow fs (n : Z) (w d : nat) :
  (2 ^ 1024 <= Z.abs n)%Z ->
  fmt_float_f (VInt n) w d = Err OverflowError /\
  fmt_float_e (VInt n) w d = Err OverflowError /\
  py_float fs (VInt n) = Err OverflowError.
Proof.
  intros Hz. pose proof (int_to_float_overflow n Hz) as H.
  unfold fmt_float_f, fmt_float_e, format_f, format_e, py_float. simpl. rewrite H.
  split; [reflexivity|]. split; [|reflexivity]. by destruct (negb (n =? 0)%Z).
Qed.

Lemma huge_int_overflow_witness :
  (2 ^ 1024 <= Z.abs (2 ^ 1024))%Z /\
  fmt_float_f (VInt (2 ^ 1024)) 10 3 = Err OverflowError /\
  fmt_float_e (VInt (2 ^ 1024)) 10 3 = Err OverflowError /\
  py_float float_of_str_none (VInt (2 ^ 1024)) = Err OverflowError.
Proof.
  split; [lia|]. apply huge_int_overflow. lia.
Defined.
